(** * EE tutor pipeline: a shallow embedding of the orchestrator and its stages

    The development follows the repository file by file:
    - [settings]      config/settings.py (the constants the stages read);
    - [PyStr]         the [str] methods the stages call;
    - [Base64]        [base64.b64encode];
    - [Json]          the fragment of [json.loads] the code generator relies on;
    - [Gate]          the health-check loop of qwen_model.py / deepseek_model.py;
    - [Retrieval]     colpali_model.py ([index_pdf_from_bytes], [get_top_k_pages]);
    - [Reasoning]     qwen_model.py ([analyze_question_with_qwen_url]);
    - [CodeGen]       deepseek_model.py ([generate_circuit_code]);
    - [Compiler]      circuit_generator.py ([run_generated_code]);
    - [Orchestrator]  modal_app.py ([solve_ee_problem]).

    Conventions.  A Python [str] is a [string] whose characters stand for the
    code points 0..255.  An exception is an instance of Python's [Exception]
    class, represented by the text [str(e)]; a call that may raise returns a
    [result].  The models, the HTTP servers, the PDF rasteriser, the Python
    interpreter behind [exec] and matplotlib are external: they appear as
    fields of a [World] record or as Section variables, never as definitions
    with invented behaviour. *)

From Stdlib Require Import List ZArith Lia Bool String Ascii.
From Stdlib Require Import Strings.Byte.
From Stdlib Require Import Permutation Sorted.
Import ListNotations.

Set Implicit Arguments.
Set Warnings "-register-all".

(** ** Exceptions and results *)

Record exn : Type := Exception { str_of : string }.

Inductive result (A : Type) : Type :=
| Ok (a : A)
| Raise (e : exn).

Arguments Ok {A} a.
Arguments Raise {A} e.

Definition bind {A B : Type} (r : result A) (k : A -> result B) : result B :=
  match r with
  | Ok a => k a
  | Raise e => Raise e
  end.

Notation "x <- r ;; k" := (bind r (fun x => k))
  (at level 61, r at next level, right associativity).

(** ** Python values: what JSON decodes to and what the envelopes hold *)

Inductive pyval : Type :=
| PNone
| PBool (b : bool)
| PInt (z : Z)
| PFloat (literal : string)
| PStr (s : string)
| PList (items : list pyval)
| PDict (entries : list (string * pyval)).

(** A [dict] keeps insertion order; storing under an existing key replaces the
    value in place. *)
Definition dict : Type := list (string * pyval).

Fixpoint dict_get (d : dict) (k : string) : option pyval :=
  match d with
  | [] => None
  | (k', v) :: d' => if String.eqb k k' then Some v else dict_get d' k
  end.

Fixpoint dict_set (d : dict) (k : string) (v : pyval) : dict :=
  match d with
  | [] => [(k, v)]
  | (k', v') :: d' =>
      if String.eqb k k' then (k', v) :: d' else (k', v') :: dict_set d' k v
  end.

Definition dict_keys (d : dict) : list string := map fst d.

Definition has_key (d : dict) (k : string) : bool :=
  match dict_get d k with Some _ => true | None => false end.

(** ** config/settings.py *)

Module settings.
Definition PDF_BATCH_SIZE : nat := 4.
Definition TOP_K_PAGES : Z := 3.
Definition MAX_TOKENS : Z := 1024.
Definition CIRCUIT_DPI : Z := 150.
Definition HEALTH_CHECK_MAX_RETRIES : nat := 30.
Definition HEALTH_CHECK_TIMEOUT : Z := 30.
Definition HEALTH_CHECK_SLEEP : Z := 10.
Definition QWEN_MODEL : string := "Qwen/Qwen2.5-VL-3B-Instruct".
Definition DEEPSEEK_MODEL : string := "deepseek-ai/deepseek-coder-1.3b-instruct".
End settings.

(** ** The [str] methods used by the stages *)

Module PyStr.
Local Open Scope string_scope.

(** [str.isspace] on one character, for the code points 0..255. *)
Definition isspace (c : ascii) : bool :=
  let n := nat_of_ascii c in
  (((9 <=? n) && (n <=? 13)) || ((28 <=? n) && (n <=? 32))
   || (n =? 133) || (n =? 160))%nat.

Fixpoint lstrip (s : string) : string :=
  match s with
  | String c s' => if isspace c then lstrip s' else s
  | EmptyString => EmptyString
  end.

Fixpoint rev_string (s : string) (acc : string) : string :=
  match s with
  | EmptyString => acc
  | String c s' => rev_string s' (String c acc)
  end.

Definition rstrip (s : string) : string :=
  rev_string (lstrip (rev_string s "")) "".

Definition strip (s : string) : string := rstrip (lstrip s).

Definition startswith (s p : string) : bool := String.prefix p s.

Fixpoint find_from (s sub : string) (i : nat) : option nat :=
  if String.prefix sub s then Some i
  else match s with
       | EmptyString => None
       | String _ s' => find_from s' sub (S i)
       end.

Fixpoint rfind_from (s sub : string) (i : nat) : option nat :=
  match s with
  | EmptyString => if String.prefix sub s then Some i else None
  | String _ s' =>
      match rfind_from s' sub (S i) with
      | Some j => Some j
      | None => if String.prefix sub s then Some i else None
      end
  end.

Definition index_or_minus1 (o : option nat) : Z :=
  match o with Some i => Z.of_nat i | None => (-1)%Z end.

(** [s.find(sub)] and [s.rfind(sub)]: the lowest, resp. highest, index at
    which [sub] occurs, [-1] when it does not. *)
Definition find (s sub : string) : Z := index_or_minus1 (find_from s sub 0).
Definition rfind (s sub : string) : Z := index_or_minus1 (rfind_from s sub 0).

(** [sub in s]. *)
Definition contains (s sub : string) : bool :=
  match find_from s sub 0 with Some _ => true | None => false end.

(** A slice bound is clamped like Python does: a negative bound counts from
    the end, and both ends are cut to [0..len]. *)
Definition clamp (len i : Z) : nat :=
  let j := if (i <? 0)%Z then (len + i)%Z else i in
  Z.to_nat (Z.max 0 (Z.min len j)).

(** [s[a:b]]. *)
Definition slice (s : string) (a b : Z) : string :=
  let len := Z.of_nat (String.length s) in
  let lo := clamp len a in
  let hi := clamp len b in
  String.substring lo (hi - lo) s.

(** [s.replace(old, new)] for a non-empty [old]: every non-overlapping
    occurrence, scanning from the left. *)
Fixpoint drop (n : nat) (s : string) : string :=
  match n, s with
  | S n', String _ s' => drop n' s'
  | _, _ => s
  end.

Fixpoint replace_fuel (fuel : nat) (s old new : string) : string :=
  match fuel with
  | 0 => s
  | S fuel' =>
      match s with
      | EmptyString => EmptyString
      | String c s' =>
          if String.prefix old s
          then new ++ replace_fuel fuel' (drop (String.length old) s) old new
          else String c (replace_fuel fuel' s' old new)
      end
  end.

Definition replace (s old new : string) : string :=
  match old with
  | EmptyString => s
  | _ => replace_fuel (String.length s) s old new
  end.
End PyStr.

(** ** base64.b64encode *)

Module Base64.
Local Open Scope string_scope.

Definition alphabet : string :=
  "ABCDEFGHIJKLMNOPQRSTUVWXYZabcdefghijklmnopqrstuvwxyz0123456789+/".

Definition sextet (n : N) : ascii :=
  match String.get (N.to_nat (n mod 64)) alphabet with
  | Some c => c
  | None => "="%char
  end.

Definition code (b : byte) : N := Byte.to_N b.

(** Three bytes give four characters; a final group of one or two bytes is
    padded with [=]. *)
Fixpoint b64encode (bs : list byte) : string :=
  match bs with
  | [] => ""
  | [a] =>
      String (sextet (code a / 4))
        (String (sextet ((code a mod 4) * 16)) "==")
  | [a; b] =>
      String (sextet (code a / 4))
        (String (sextet ((code a mod 4) * 16 + code b / 16))
           (String (sextet ((code b mod 16) * 4)) "="))
  | a :: b :: c :: rest =>
      String (sextet (code a / 4))
        (String (sextet ((code a mod 4) * 16 + code b / 16))
           (String (sextet ((code b mod 16) * 4 + code c / 64))
              (String (sextet (code c mod 64)) (b64encode rest))))
  end.
End Base64.

(** ** json.loads

    The decoder of Python's [json] module with its default settings, over
    code points 0..255: objects, arrays, strings with the escapes of the JSON
    grammar, numbers, [true], [false], [null] and the three non-finite
    literals Python accepts.  A repeated key keeps its first position and its
    last value, as [dict(pairs)] does.  [None] stands for
    [json.JSONDecodeError].  A [\u] escape above U+00FF has no counterpart in
    [string] and is refused. *)

Module Json.
Local Open Scope string_scope.

Definition dquote : ascii := ascii_of_nat 34.
Definition backslash : ascii := ascii_of_nat 92.

Definition is_ws (c : ascii) : bool :=
  let n := nat_of_ascii c in
  ((n =? 32) || (n =? 9) || (n =? 10) || (n =? 13))%nat.

Fixpoint skip_ws (s : string) : string :=
  match s with
  | String c r => if is_ws c then skip_ws r else s
  | EmptyString => EmptyString
  end.

Definition is_digit (c : ascii) : bool :=
  let n := nat_of_ascii c in ((48 <=? n) && (n <=? 57))%nat.

Definition digit_val (c : ascii) : Z := Z.of_nat (nat_of_ascii c - 48).

Definition hex_val (c : ascii) : option nat :=
  let n := nat_of_ascii c in
  if ((48 <=? n) && (n <=? 57))%nat then Some (n - 48)
  else if ((65 <=? n) && (n <=? 70))%nat then Some (n - 55)
  else if ((97 <=? n) && (n <=? 102))%nat then Some (n - 87)
  else None.

(** The longest run of decimal digits at the head of [s], and what follows. *)
Fixpoint span_digits (s : string) : string * string :=
  match s with
  | String c r =>
      if is_digit c then let (ds, rest) := span_digits r in (String c ds, rest)
      else (EmptyString, s)
  | EmptyString => (EmptyString, EmptyString)
  end.

Fixpoint digits_value (ds : string) (acc : Z) : Z :=
  match ds with
  | String c r => digits_value r (10 * acc + digit_val c)%Z
  | EmptyString => acc
  end.

(** One escape, given the character after the backslash and the text after
    that character. *)
Definition unescape (c : ascii) (r : string) : option (ascii * string) :=
  let simple (n : nat) := Some (ascii_of_nat n, r) in
  match c with
  | "/"%char => simple 47
  | "b"%char => simple 8
  | "f"%char => simple 12
  | "n"%char => simple 10
  | "r"%char => simple 13
  | "t"%char => simple 9
  | "u"%char =>
      match r with
      | String h1 (String h2 (String h3 (String h4 r'))) =>
          match hex_val h1, hex_val h2, hex_val h3, hex_val h4 with
          | Some a, Some b, Some c', Some d =>
              let n := ((a * 16 + b) * 16 + c') * 16 + d in
              if (n <? 256)%nat then Some (ascii_of_nat n, r') else None
          | _, _, _, _ => None
          end
      | _ => None
      end
  | _ =>
      if Ascii.eqb c dquote then simple 34
      else if Ascii.eqb c backslash then simple 92
      else None
  end.

(** [scanstring], entered just after the opening quote: the decoded text and
    what follows the closing quote.  A raw control character ends the scan
    with an error (strict mode).  The fuel is the length of the input. *)
Fixpoint scanstring (fuel : nat) (s : string) : option (string * string) :=
  match fuel with
  | 0 => None
  | S fuel' =>
      match s with
      | EmptyString => None
      | String c r =>
          if Ascii.eqb c dquote then Some (EmptyString, r)
          else if Ascii.eqb c backslash then
            match r with
            | EmptyString => None
            | String e r' =>
                match unescape e r' with
                | Some (ch, r'') =>
                    match scanstring fuel' r'' with
                    | Some (t, rest) => Some (String ch t, rest)
                    | None => None
                    end
                | None => None
                end
            end
          else if (nat_of_ascii c <? 32)%nat then None
          else
            match scanstring fuel' r with
            | Some (t, rest) => Some (String c t, rest)
            | None => None
            end
      end
  end.

(** The number pattern of the decoder: an optional minus sign; the integer
    part, a single 0 or a digit 1-9 followed by digits; an optional fraction,
    a dot and at least one digit; an optional exponent, e or E, an optional
    sign and at least one digit.  A dot or an exponent mark that no digit
    follows is left in the text. *)
Definition scan_number (s : string) : option (pyval * string) :=
  let '(neg, s1) :=
    match s with
    | String "-"%char r => (true, r)
    | _ => (false, s)
    end in
  match s1 with
  | String c r =>
      if is_digit c then
        let '(ds, rest) :=
          if Ascii.eqb c "0"%char then ("0", r) else span_digits s1 in
        let '(frac, rest1) :=
          match rest with
          | String "."%char r2 =>
              match span_digits r2 with
              | (EmptyString, _) => (EmptyString, rest)
              | (fs, r3) => (String "."%char fs, r3)
              end
          | _ => (EmptyString, rest)
          end in
        let '(ex, rest2) :=
          match rest1 with
          | String e r2 =>
              if Ascii.eqb e "e"%char || Ascii.eqb e "E"%char then
                let '(sg, r3) :=
                  match r2 with
                  | String "+"%char r' => ("+", r')
                  | String "-"%char r' => ("-", r')
                  | _ => (EmptyString, r2)
                  end in
                match span_digits r3 with
                | (EmptyString, _) => (EmptyString, rest1)
                | (es, r4) => (String e (sg ++ es), r4)
                end
              else (EmptyString, rest1)
          | EmptyString => (EmptyString, rest1)
          end in
        match frac, ex with
        | EmptyString, EmptyString =>
            let v := digits_value ds 0 in
            Some (PInt (if neg then (- v)%Z else v), rest2)
        | _, _ =>
            Some (PFloat ((if neg then "-" else "") ++ ds ++ frac ++ ex), rest2)
        end
      else None
  | EmptyString => None
  end.

Definition scan_literal (s : string) : option (pyval * string) :=
  let attempt (lit : string) (v : pyval) :=
    if String.prefix lit s then Some (v, PyStr.drop (String.length lit) s)
    else None in
  match attempt "null" PNone with
  | Some r => Some r
  | None =>
  match attempt "true" (PBool true) with
  | Some r => Some r
  | None =>
  match attempt "false" (PBool false) with
  | Some r => Some r
  | None =>
  match scan_number s with
  | Some r => Some r
  | None =>
  match attempt "NaN" (PFloat "NaN") with
  | Some r => Some r
  | None =>
  match attempt "Infinity" (PFloat "Infinity") with
  | Some r => Some r
  | None => attempt "-Infinity" (PFloat "-Infinity")
  end end end end end end.

(** [scan_once] with the object and array loops.  [members] is entered just
    after the opening quote of a key, [items] at the first character of an
    element. *)
Fixpoint scan_once (fuel : nat) (s : string) : option (pyval * string) :=
  match fuel with
  | 0 => None
  | S f =>
      match s with
      | EmptyString => None
      | String c r =>
          if Ascii.eqb c dquote then
            match scanstring (String.length r) r with
            | Some (t, rest) => Some (PStr t, rest)
            | None => None
            end
          else
            match c with
            | "{"%char =>
                match skip_ws r with
                | String c' r' =>
                    if Ascii.eqb c' "}"%char then Some (PDict [], r')
                    else if Ascii.eqb c' dquote then members f r' []
                    else None
                | EmptyString => None
                end
            | "["%char =>
                match skip_ws r with
                | String "]"%char r' => Some (PList [], r')
                | r' => items f r' []
                end
            | _ => scan_literal s
            end
      end
  end
with members (fuel : nat) (s : string) (acc : dict) : option (pyval * string) :=
  match fuel with
  | 0 => None
  | S f =>
      match scanstring (String.length s) s with
      | None => None
      | Some (key, r) =>
          match skip_ws r with
          | String ":"%char r1 =>
              match scan_once f (skip_ws r1) with
              | None => None
              | Some (v, r2) =>
                  let acc' := dict_set acc key v in
                  match skip_ws r2 with
                  | String "}"%char r3 => Some (PDict acc', r3)
                  | String ","%char r3 =>
                      match skip_ws r3 with
                      | String c' r4 =>
                          if Ascii.eqb c' dquote then members f r4 acc'
                          else None
                      | EmptyString => None
                      end
                  | _ => None
                  end
              end
          | _ => None
          end
      end
  end
with items (fuel : nat) (s : string) (acc : list pyval) : option (pyval * string) :=
  match fuel with
  | 0 => None
  | S f =>
      match scan_once f s with
      | None => None
      | Some (v, r) =>
          match skip_ws r with
          | String "]"%char r1 => Some (PList (acc ++ [v]), r1)
          | String ","%char r1 => items f (skip_ws r1) (acc ++ [v])
          | _ => None
          end
      end
  end.

(** [json.loads(s)]: leading blanks, one value, trailing blanks, end of text.
    Every call of the three loops consumes a character within two steps, so
    twice the length of the text is fuel enough. *)
Definition loads (s : string) : option pyval :=
  match scan_once (2 * String.length s + 2) (skip_ws s) with
  | Some (v, rest) =>
      match skip_ws rest with
      | EmptyString => Some v
      | _ => None
      end
  | None => None
  end.
End Json.

(** ** The health-check loop (qwen_model.py 50-62, deepseek_model.py 49-61)

    Both model stages open with the same loop.  [Probe i] records the
    [client.get("/health")] of iteration [i], [Sleep n] a [time.sleep(n)]. *)

Module Gate.
Local Open Scope string_scope.

(** What one [client.get("/health")] does: it returns a response with a
    status code, or the client raises (connection refused, timeout, ...). *)
Inductive probe : Type :=
| Status (code : Z)
| ClientError (e : exn).

Inductive event : Type :=
| Probe (i : nat)
| Sleep (secs : Z).

(** [for i in range(max)], entered at iteration [i] with [todo] iterations
    left.  A 200 breaks out of the loop.  Any other status reaches the end of
    the [try] body without raising, so the [except] clause is skipped and the
    loop goes on.  An exception is logged, then the loop sleeps, and raises
    when [i] is the last index. *)
Fixpoint health_loop (server : string) (max : nat) (health : nat -> probe)
    (i todo : nat) : result unit * list event :=
  match todo with
  | 0 => (Ok tt, [])
  | S todo' =>
      match health i with
      | Status code =>
          if (code =? 200)%Z then (Ok tt, [Probe i])
          else
            let (r, t) := health_loop server max health (S i) todo' in
            (r, Probe i :: t)
      | ClientError _ =>
          if (i =? max - 1)%nat then
            (Raise (Exception (server ++ " server failed to start")),
             [Probe i; Sleep settings.HEALTH_CHECK_SLEEP])
          else
            let (r, t) := health_loop server max health (S i) todo' in
            (r, Probe i :: Sleep settings.HEALTH_CHECK_SLEEP :: t)
      end
  end.

Definition wait_for_server (server : string) (max : nat)
    (health : nat -> probe) : result unit * list event :=
  health_loop server max health 0 max.

Fixpoint probes (t : list event) : nat :=
  match t with
  | [] => 0
  | Probe _ :: t' => S (probes t')
  | Sleep _ :: t' => probes t'
  end.

Fixpoint sleeps (t : list event) : nat :=
  match t with
  | [] => 0
  | Probe _ :: t' => sleeps t'
  | Sleep _ :: t' => S (sleeps t')
  end.

(** The attempt succeeds: the endpoint answered 200. *)
Definition ready (p : probe) : bool :=
  match p with
  | Status code => (code =? 200)%Z
  | ClientError _ => false
  end.
End Gate.

(** ** Page images *)

(** A PIL image, identified with the PNG stream that
    [img.save(buffer, format="PNG")] writes for it. *)
Record image : Type := PIL { png : list byte }.

(** ** colpali_model.py *)

Module Retrieval.

(** [try: ... except Exception as e: raise Exception(prefix + str(e))]. *)
Definition reraise {A : Type} (prefix : string) (r : result A) : result A :=
  match r with
  | Ok a => Ok a
  | Raise e => Raise (Exception (prefix ++ str_of e)%string)
  end.

(** [range(start, stop, step)] for a positive [step]; at most [fuel] items. *)
Fixpoint range_step (fuel start stop step : nat) : list nat :=
  match fuel with
  | 0 => []
  | S fuel' =>
      if start <? stop then start :: range_step fuel' (start + step) stop step
      else []
  end.

(** [l[i : j]] for indices [0 <= i <= j]. *)
Definition list_slice {A : Type} (l : list A) (i j : nat) : list A :=
  firstn (j - i) (skipn i l).

(** [[images[i : i + size] for i in range(0, len(images), size)]]. *)
Definition make_batches {A : Type} (size : nat) (l : list A) : list (list A) :=
  map (fun i => list_slice l i (i + size))
      (range_step (List.length l) 0 (List.length l) size).

(** [l[:k]] with Python's reading of a negative bound. *)
Definition list_slice_to {A : Type} (l : list A) (k : Z) : list A :=
  firstn (PyStr.clamp (Z.of_nat (List.length l)) k) l.

(** [[f(x) for x in l]] where [f] may raise. *)
Fixpoint traverse {A B : Type} (f : A -> result B) (l : list A) : result (list B) :=
  match l with
  | [] => Ok []
  | x :: l' => y <- f x ;; ys <- traverse f l' ;; Ok (y :: ys)
  end.

(** [l[i]] for [i >= 0]. *)
Definition list_getitem {A : Type} (l : list A) (i : nat) : result A :=
  match nth_error l i with
  | Some x => Ok x
  | None => Raise (Exception "list index out of range"%string)
  end.

Section Sorting.
Variable A : Type.
Variable lt : A -> A -> bool.

(** [list.sort] is stable and compares with [<] only.  [insert x l] puts [x],
    an element that stood before all of [l], in front of the first element
    that is not smaller than it. *)
Fixpoint insert (x : A) (l : list A) : list A :=
  match l with
  | [] => [x]
  | y :: l' => if lt y x then y :: insert x l' else x :: y :: l'
  end.

Definition stable_sort (l : list A) : list A := fold_right insert [] l.

(** [l.sort(reverse=True)]: CPython reverses the list, sorts it forward and
    reverses the outcome, which keeps equal elements in their first order. *)
Definition sort_reverse (l : list A) : list A := rev (stable_sort (rev l)).
End Sorting.

Section Colpali.
Variables embedding score : Type.
(** [a < b] on two scores. *)
Variable score_lt : score -> score -> bool.
(** [pdf2image.convert_from_bytes(pdf_data, dpi=150)]. *)
Variable convert_from_bytes : list byte -> result (list image).
(** One batch through the processor and the model, moved to the CPU and
    turned into a list. *)
Variable embed_images : list image -> result (list embedding).
(** The query through the processor and the model. *)
Variable embed_query : string -> result embedding.
(** [processor.score_multi_vector(query_embedding, pdf_embeddings)], read as
    the sequence [scores] that the method indexes with [scores[i]]. *)
Variable score_multi_vector : embedding -> list embedding -> result (list score).

(** The [for] loop over the batches: [pdf_embeddings += list(...)]. *)
Fixpoint embed_batches (batches : list (list image)) (pdf_embeddings : list embedding)
    : result (list embedding) :=
  match batches with
  | [] => Ok pdf_embeddings
  | batch :: rest =>
      batch_embeddings <- embed_images batch ;;
      embed_batches rest (pdf_embeddings ++ batch_embeddings)
  end.

Definition index_pdf_from_bytes (pdf_data : list byte)
    : result (list embedding * list image) :=
  reraise "Failed to process PDF: "%string
    (images <- convert_from_bytes pdf_data ;;
     let batches := make_batches settings.PDF_BATCH_SIZE images in
     pdf_embeddings <- embed_batches batches [] ;;
     Ok (pdf_embeddings, images)).

(** [[(i, scores[i]) for i in range(len(scores))]]. *)
Definition scored (scores : list score) : list (nat * score) :=
  combine (seq 0 (List.length scores)) scores.

Definition by_score (a b : nat * score) : bool := score_lt (snd a) (snd b).

Definition get_top_k_pages (query : string) (pdf_embeddings : list embedding)
    (images : list image) (k : Z) : result (list image) :=
  reraise "Failed to retrieve relevant pages: "%string
    (query_embedding <- embed_query query ;;
     scores <- score_multi_vector query_embedding pdf_embeddings ;;
     let scored_indices := sort_reverse by_score (scored scores) in
     let top_k_indices := map fst (list_slice_to scored_indices k) in
     traverse (list_getitem images) top_k_indices).
End Colpali.
End Retrieval.

(** ** Chat-completion requests and decoded responses *)

Module Http.
Local Open Scope string_scope.

Definition nl : string := String (ascii_of_nat 10) EmptyString.

Inductive part : Type :=
| Text (text : string)
| ImageUrl (url : string).

Inductive content : Type :=
| Parts (parts : list part)
| Plain (text : string).

Record message : Type := Message { role : string; body : content }.

Record payload : Type := Payload {
  model : string;
  messages : list message;
  max_tokens : Z;
  (** the float 0.1, kept as its literal *)
  temperature : string
}.

Definition TEMPERATURE : string := "0.1".

Definition type_name (v : pyval) : string :=
  match v with
  | PNone => "NoneType"
  | PBool _ => "bool"
  | PInt _ => "int"
  | PFloat _ => "float"
  | PStr _ => "str"
  | PList _ => "list"
  | PDict _ => "dict"
  end.

(** [v[key]] for a string key. *)
Definition getitem (v : pyval) (key : string) : result pyval :=
  match v with
  | PDict d =>
      match dict_get d key with
      | Some x => Ok x
      | None => Raise (Exception ("'" ++ key ++ "'"))
      end
  | PStr _ => Raise (Exception "string indices must be integers, not 'str'")
  | PList _ => Raise (Exception "list indices must be integers or slices, not str")
  | _ => Raise (Exception ("'" ++ type_name v ++ "' object is not subscriptable"))
  end.

(** [v[0]]. *)
Definition getitem0 (v : pyval) : result pyval :=
  match v with
  | PList (x :: _) => Ok x
  | PList [] => Raise (Exception "list index out of range")
  | PStr (String c _) => Ok (PStr (String c EmptyString))
  | PStr EmptyString => Raise (Exception "string index out of range")
  | PDict _ => Raise (Exception "0")
  | _ => Raise (Exception ("'" ++ type_name v ++ "' object is not subscriptable"))
  end.

(** [result["choices"][0]["message"]["content"]]. *)
Definition first_choice (response : pyval) : result pyval :=
  choices <- getitem response "choices" ;;
  choice <- getitem0 choices ;;
  msg <- getitem choice "message" ;;
  getitem msg "content".
End Http.

(** ** qwen_model.py *)

Module Reasoning.
Import Http.
Local Open Scope string_scope.

(** An entry of [context_images]: a PIL image, or an object without a [save]
    attribute, which the loop passes over. *)
Inductive context_image : Type :=
| Page (img : image)
| NoSave.

Section Qwen.
(** config/qwen_instructions.txt, stripped. *)
Variable QWEN_INSTRUCTIONS : string.
(** The [i]-th [GET /health] against a server, and the decoded body of a
    [POST /v1/chat/completions] to it. *)
Variable health : string -> nat -> Gate.probe.
Variable post : string -> payload -> result pyval.

Definition image_part (b64 : string) : part :=
  ImageUrl ("data:image/png;base64," ++ b64).

(** [if user_images_b64: for img_b64 in user_images_b64: ...]; [None] and the
    empty list add nothing. *)
Definition user_parts (user_images_b64 : option (list string)) : list part :=
  match user_images_b64 with
  | Some imgs => map image_part imgs
  | None => []
  end.

Definition context_part (c : context_image) : list part :=
  match c with
  | Page img => [image_part (Base64.b64encode (png img))]
  | NoSave => []
  end.

Definition separator : part :=
  Text (nl ++ nl ++ "Relevant textbook pages for reference:").

Definition context_parts (context_images : option (list context_image)) : list part :=
  match context_images with
  | Some (c :: cs) => separator :: flat_map context_part (c :: cs)
  | Some [] => []
  | None => []
  end.

Definition preamble (user_query : string) : part :=
  Text (QWEN_INSTRUCTIONS ++ nl ++ nl ++ "Question: " ++ user_query).

Definition build_content (user_query : string)
    (user_images_b64 : option (list string))
    (context_images : option (list context_image)) : list part :=
  (preamble user_query :: user_parts user_images_b64
     ++ context_parts context_images)%list.

Definition qwen_payload (parts : list part) : payload :=
  {| model := settings.QWEN_MODEL;
     messages := [Message "user" (Parts parts)];
     max_tokens := settings.MAX_TOKENS;
     temperature := TEMPERATURE |}.

Definition analyze_question_with_qwen_url (server_url user_query : string)
    (user_images_b64 : option (list string))
    (context_images : option (list context_image)) : result pyval :=
  _ <- fst (Gate.wait_for_server "Qwen" settings.HEALTH_CHECK_MAX_RETRIES
              (health server_url)) ;;
  let parts := build_content user_query user_images_b64 context_images in
  response <- post server_url (qwen_payload parts) ;;
  first_choice response.
End Qwen.
End Reasoning.

(** ** deepseek_model.py *)

Module CodeGen.
Import Http.
Local Open Scope string_scope.

Definition fence : string := "```".
Definition python_fence : string := "```python".

(** ['code' in v]. *)
Definition contains_code (v : pyval) : result bool :=
  match v with
  | PDict d => Ok (has_key d "code")
  | PList l =>
      Ok (existsb (fun x => match x with
                            | PStr t => String.eqb t "code"
                            | _ => false
                            end) l)
  | PStr t => Ok (PyStr.contains t "code")
  | _ => Raise (Exception ("argument of type '" ++ type_name v ++ "' is not iterable"))
  end.

(** The [try] block.  [Some r]: the block returned or raised [r];  [None]:
    control falls through to the text extraction, because the stripped text
    does not open with a brace, the text is not JSON ([JSONDecodeError] is
    caught), or the decoded value has no [code] entry. *)
Definition from_json (content : string) : option (result pyval) :=
  if PyStr.startswith (PyStr.strip content) "{" then
    match Json.loads content with
    | None => None
    | Some json_response =>
        match contains_code json_response with
        | Raise e => Some (Raise e)
        | Ok true => Some (getitem json_response "code")
        | Ok false => None
        end
    end
  else None.

Definition from_python_fence (content : string) : string :=
  let code_start := (PyStr.find content python_fence + 9)%Z in
  let code_end := PyStr.rfind content fence in
  if negb (code_end =? -1)%Z && (code_start <? code_end)%Z
  then PyStr.strip (PyStr.slice content code_start code_end)
  else content.

Definition from_any_fence (content : string) : string :=
  let first_backticks := PyStr.find content fence in
  let last_backticks := PyStr.rfind content fence in
  if negb (first_backticks =? -1)%Z && negb (last_backticks =? -1)%Z
     && (first_backticks <? last_backticks)%Z
  then PyStr.strip (PyStr.slice content (first_backticks + 3)%Z last_backticks)
  else content.

(** The [if]/[elif] after the [try] block. *)
Definition from_text (content : string) : string :=
  if PyStr.contains content python_fence then from_python_fence content
  else if PyStr.contains content fence then from_any_fence content
  else content.

(** Everything [generate_circuit_code] does with the reply text. *)
Definition extract_code (content : string) : result pyval :=
  match from_json content with
  | Some r => r
  | None => Ok (PStr (from_text content))
  end.

Section Deepseek.
(** config/deepseek_prompt.txt, stripped. *)
Variable DEEPSEEK_PROMPT_TEMPLATE : string.
Variable health : string -> nat -> Gate.probe.
Variable post : string -> payload -> result pyval.

Definition system_prompt : string :=
  "You are a Python expert. Return ONLY valid JSON with a 'code' field containing Python code.".

(** The two [replace] calls; the second needs a [str]. *)
Definition enhanced_prompt (user_query : string) (qwen_solution : pyval) : result string :=
  match qwen_solution with
  | PStr solution =>
      Ok (PyStr.replace
            (PyStr.replace DEEPSEEK_PROMPT_TEMPLATE "{question}" user_query)
            "{solution}" solution)
  | _ =>
      Raise (Exception ("replace() argument 2 must be str, not "
                          ++ type_name qwen_solution))
  end.

Definition deepseek_payload (prompt : string) : payload :=
  {| model := settings.DEEPSEEK_MODEL;
     messages := [Message "system" (Plain system_prompt);
                  Message "user" (Plain prompt)];
     max_tokens := settings.MAX_TOKENS;
     temperature := TEMPERATURE |}.

Definition generate_circuit_code (server_url user_query : string)
    (qwen_solution : pyval) : result pyval :=
  _ <- fst (Gate.wait_for_server "DeepSeek" settings.HEALTH_CHECK_MAX_RETRIES
              (health server_url)) ;;
  prompt <- enhanced_prompt user_query qwen_solution ;;
  response <- post server_url (deepseek_payload prompt) ;;
  content <- first_choice response ;;
  match content with
  | PStr text => extract_code text
  | _ =>
      Raise (Exception ("'" ++ type_name content
                          ++ "' object has no attribute 'strip'"))
  end.
End Deepseek.
End CodeGen.

(** ** circuit_generator.py *)

Module Compiler.
Local Open Scope string_scope.

(** pyplot's process-wide figure registry: the numbers of the open figures. *)
Definition figures : Type := list nat.

(** An exception caught in [run_generated_code], with the lines
    [traceback.format_exc()] prints for it below the header: one entry per
    frame and the closing [Type: message] line. *)
Record caught : Type := Caught { exc : exn; stack : string }.

(** What [exec(schemdraw_code, exec_globals)] does: the text written to the
    two redirected streams, the figure registry it leaves, and the exception
    that ended it, if one did. *)
Record exec_outcome : Type := ExecOutcome {
  exec_error : option caught;
  exec_stdout : string;
  exec_stderr : string;
  exec_figures : figures
}.

(** What [plt.savefig(img_buffer, format='png', ...)] does on the current
    figure: the bytes it writes, or the exception it raises, and the text
    matplotlib sends to the redirected streams meanwhile. *)
Record savefig_outcome : Type := SavefigOutcome {
  saved : caught + list byte;
  savefig_stdout : string;
  savefig_stderr : string
}.

Definition traceback_header : string :=
  "Traceback (most recent call last):" ++ Http.nl.

(** [traceback.format_exc()] inside the [except] clause. *)
Definition format_exc (c : caught) : string := traceback_header ++ stack c.

(** [plt.savefig] works on [plt.gcf()], which opens figure 1 when the registry
    is empty. *)
Definition gcf (figs : figures) : figures :=
  match figs with
  | [] => [1]
  | _ => figs
  end.

(** [plt.close('all')]. *)
Definition close_all (figs : figures) : figures := [].

Section Sandbox.
Variable py_exec : pyval -> figures -> exec_outcome.
Variable savefig : figures -> savefig_outcome.

Definition failure (schemdraw_code : pyval) (c : caught) : dict :=
  [("success", PBool false);
   ("error", PStr ("Error executing schemdraw code: " ++ str_of (exc c)));
   ("traceback", PStr (format_exc c));
   ("schemdraw_code", schemdraw_code)].

Definition success (schemdraw_code : pyval) (img_base64 out err : string) : dict :=
  [("success", PBool true);
   ("image_base64", PStr img_base64);
   ("stdout", PStr out);
   ("stderr", PStr err);
   ("schemdraw_code", schemdraw_code)].

(** The returned record and the figure registry the call leaves behind. *)
Definition run_generated_code (schemdraw_code : pyval) (figs : figures)
    : dict * figures :=
  let ran := py_exec schemdraw_code figs in
  match exec_error ran with
  | Some c => (failure schemdraw_code c, exec_figures ran)
  | None =>
      let current := gcf (exec_figures ran) in
      let written := savefig current in
      match saved written with
      | inl c => (failure schemdraw_code c, current)
      | inr png_bytes =>
          let img_base64 := Base64.b64encode png_bytes in
          (success schemdraw_code img_base64
             (exec_stdout ran ++ savefig_stdout written)
             (exec_stderr ran ++ savefig_stderr written),
           close_all current)
      end
  end.
End Sandbox.
End Compiler.

(** ** modal_app.py *)

Module Orchestrator.
Local Open Scope string_scope.

(** Everything outside the repository that one request touches. *)
Record World : Type := {
  embedding : Type;
  score : Type;
  score_lt : score -> score -> bool;
  convert_from_bytes : list byte -> result (list image);
  embed_images : list image -> result (list embedding);
  embed_query : string -> result embedding;
  score_multi_vector : embedding -> list embedding -> result (list score);
  (** [serve_qwen.get_web_url()], [serve_deepseek.get_web_url()] *)
  qwen_web_url : result string;
  deepseek_web_url : result string;
  health : string -> nat -> Gate.probe;
  post : string -> Http.payload -> result pyval;
  QWEN_INSTRUCTIONS : string;
  DEEPSEEK_PROMPT_TEMPLATE : string;
  py_exec : pyval -> Compiler.figures -> Compiler.exec_outcome;
  savefig : Compiler.figures -> Compiler.savefig_outcome;
  (** the figure registry of the compiler's process when the request arrives *)
  open_figures : Compiler.figures;
  (** [f"{time.time() - start_time:.2f}s"] *)
  total_processing_time : string
}.

Section Request.
Variable W : World.

Definition b64_images (user_images_bytes : option (list (list byte))) : list string :=
  match user_images_bytes with
  | Some imgs => map Base64.b64encode imgs
  | None => []
  end.

Definition envelope (user_query : string) (textual_solution : pyval)
    (circuit_result : dict) (relevant_pages : list image)
    (user_images_b64 : list string) (circuit_schemdraw : pyval) : dict :=
  [("success", PBool true);
   ("question", PStr user_query);
   ("textual_solution", textual_solution);
   ("circuit_diagram", PDict circuit_result);
   ("metadata",
    PDict [("num_relevant_pages", PInt (Z.of_nat (List.length relevant_pages)));
           ("has_user_images", PBool (negb (Nat.eqb (List.length user_images_b64) 0)));
           ("generated_code", circuit_schemdraw);
           ("total_processing_time", PStr (total_processing_time W))])].

Definition failure_envelope (user_query : string) (e : exn) : dict :=
  [("success", PBool false);
   ("error", PStr (str_of e));
   ("question", PStr user_query)].

(** The body of the [try] block. *)
Definition pipeline (user_query : string) (pdf_data : list byte)
    (user_images_bytes : option (list (list byte))) : result dict :=
  let user_images_b64 := b64_images user_images_bytes in
  let pdf_task :=
    Retrieval.index_pdf_from_bytes (convert_from_bytes W) (embed_images W) pdf_data in
  qwen_server_url <- qwen_web_url W ;;
  deepseek_server_url <- deepseek_web_url W ;;
  indexed <- pdf_task ;;
  let (pdf_embeddings, pdf_images) := indexed in
  relevant_pages <-
    Retrieval.get_top_k_pages (score_lt W) (embed_query W) (score_multi_vector W)
      user_query pdf_embeddings pdf_images 3 ;;
  textual_solution <-
    Reasoning.analyze_question_with_qwen_url (QWEN_INSTRUCTIONS W) (health W) (post W)
      qwen_server_url user_query (Some user_images_b64)
      (Some (map Reasoning.Page relevant_pages)) ;;
  circuit_schemdraw <-
    CodeGen.generate_circuit_code (DEEPSEEK_PROMPT_TEMPLATE W) (health W) (post W)
      deepseek_server_url user_query textual_solution ;;
  let circuit_result :=
    fst (Compiler.run_generated_code (py_exec W) (savefig W)
           circuit_schemdraw (open_figures W)) in
  Ok (envelope user_query textual_solution circuit_result relevant_pages
        user_images_b64 circuit_schemdraw).

(** [try: ... except Exception as e: return {...}]. *)
Definition solve_ee_problem (user_query : string) (pdf_data : list byte)
    (user_images_bytes : option (list (list byte))) : result dict :=
  match pipeline user_query pdf_data user_images_bytes with
  | Ok result => Ok result
  | Raise e => Ok (failure_envelope user_query e)
  end.
End Request.
End Orchestrator.

(** * Properties *)

(** ** Results *)

Lemma bind_ok {A B : Type} (r : result A) (k : A -> result B) (b : B) :
  bind r k = Ok b -> exists a, r = Ok a /\ k a = Ok b.
Proof. destruct r as [a|e]; simpl; intros H; [eauto | discriminate]. Qed.

Lemma bind_raise {A B : Type} (r : result A) (k : A -> result B) (e : exn) :
  bind r k = Raise e -> r = Raise e \/ exists a, r = Ok a /\ k a = Raise e.
Proof.
  destruct r as [a|e']; simpl; intros H.
  - right; eauto.
  - left; inversion H; reflexivity.
Qed.

(** ** The health-check loop *)

Section GateFacts.
Import Gate.
Variable server : string.
Variable max : nat.
Variable health : nat -> probe.

(** Up to the first 200 the loop never raises: an exception is fatal only in
    the last iteration, and the 200 comes no later than that. *)
Lemma health_loop_first_ready :
  forall todo i0 i,
    i0 + todo <= max -> i0 <= i -> i < i0 + todo ->
    ready (health i) = true ->
    (forall j, i0 <= j -> j < i -> ready (health j) = false) ->
    exists t,
      health_loop server max health i0 todo = (Ok tt, (t ++ [Probe i])%list)
      /\ probes t = i - i0.
Proof.
  induction todo as [|todo IH]; intros i0 i Hmax Hle Hlt Hready Hbefore.
  - lia.
  - destruct (Nat.eq_dec i0 i) as [->|Hne].
    + simpl. destruct (health i) as [code|err]; simpl in Hready.
      * rewrite Hready. exists []. split; [reflexivity | simpl; lia].
      * discriminate.
    + assert (Hnot : ready (health i0) = false) by (apply Hbefore; lia).
      destruct (IH (S i0) i) as [t [Heq Hcount]]; try lia; auto.
      { intros j Hj1 Hj2. apply Hbefore; lia. }
      simpl. destruct (health i0) as [code|err]; simpl in Hnot.
      * rewrite Hnot, Heq. exists (Probe i0 :: t). split; [reflexivity|].
        simpl. lia.
      * replace (i0 =? max - 1) with false
          by (symmetry; apply Nat.eqb_neq; lia).
        rewrite Heq.
        exists (Probe i0 :: Sleep settings.HEALTH_CHECK_SLEEP :: t).
        split; [reflexivity|]. simpl. lia.
Qed.

(** While no probe answers 200, every remaining iteration issues its probe,
    whatever the loop returns in the end. *)
Lemma health_loop_never_ready_probes :
  forall todo i0,
    i0 + todo <= max ->
    (forall j, i0 <= j -> j < i0 + todo -> ready (health j) = false) ->
    probes (snd (health_loop server max health i0 todo)) = todo.
Proof.
  induction todo as [|todo IH]; intros i0 Hmax Hnever; [reflexivity|].
  assert (Hnot : ready (health i0) = false) by (apply Hnever; lia).
  assert (Hrest : probes (snd (health_loop server max health (S i0) todo)) = todo).
  { apply IH; [lia|]. intros j Hj1 Hj2. apply Hnever; lia. }
  simpl. destruct (health i0) as [code|err]; simpl in Hnot.
  - rewrite Hnot.
    destruct (health_loop server max health (S i0) todo) as [r t].
    simpl in *. lia.
  - destruct (i0 =? max - 1) eqn:Hlast.
    + apply Nat.eqb_eq in Hlast. simpl. lia.
    + destruct (health_loop server max health (S i0) todo) as [r t].
      simpl in *. lia.
Qed.

(** When every probe is answered, but never with 200, the loop runs out
    without sleeping and without raising. *)
Lemma health_loop_statuses_fall_through :
  forall todo i0,
    (forall j, i0 <= j -> j < i0 + todo ->
               exists code, health j = Status code /\ code <> 200%Z) ->
    health_loop server max health i0 todo = (Ok tt, map Probe (seq i0 todo)).
Proof.
  induction todo as [|todo IH]; intros i0 Hall; [reflexivity|].
  destruct (Hall i0) as [code [Hcode Hne]]; try lia.
  simpl. rewrite Hcode.
  replace (code =? 200)%Z with false by (symmetry; apply Z.eqb_neq; exact Hne).
  rewrite IH; [reflexivity|].
  intros j Hj1 Hj2. apply Hall; lia.
Qed.

(** When every probe raises, the loop sleeps after each of them and raises in
    the last iteration. *)
Lemma health_loop_errors_raise :
  forall todo i0,
    i0 + S todo = max ->
    (forall j, i0 <= j -> j < max -> exists e, health j = ClientError e) ->
    exists t,
      health_loop server max health i0 (S todo)
      = (Raise (Exception (server ++ " server failed to start")%string), t)
      /\ probes t = S todo /\ sleeps t = S todo.
Proof.
  induction todo as [|todo IH]; intros i0 Hmax Hall.
  - destruct (Hall i0) as [e He]; try lia.
    simpl. rewrite He.
    replace (i0 =? max - 1) with true by (symmetry; apply Nat.eqb_eq; lia).
    eexists. split; [reflexivity|]. split; reflexivity.
  - destruct (Hall i0) as [e He]; try lia.
    destruct (IH (S i0)) as [t [Heq [Hp Hs]]]; try lia.
    { intros j Hj1 Hj2. apply Hall; lia. }
    remember (S todo) as n eqn:Hn.
    simpl. rewrite He.
    replace (i0 =? max - 1) with false by (symmetry; apply Nat.eqb_neq; lia).
    rewrite Heq. eexists. split; [reflexivity|].
    simpl. split; lia.
Qed.
End GateFacts.

Lemma probes_app (t u : list Gate.event) :
  Gate.probes (t ++ u) = Gate.probes t + Gate.probes u.
Proof.
  induction t as [|[i|n] t IH]; simpl; auto.
Qed.

(** The gate returns at the first 200: if iteration [i] (the [i+1]-th
    attempt) is the first to be answered with 200, the loop returns normally,
    its last action is that probe, and it has issued [i+1] probes in all. *)
Theorem gate_returns_at_first_ready :
  forall (server : string) (max : nat) (health : nat -> Gate.probe) (i : nat),
    i < max ->
    Gate.ready (health i) = true ->
    (forall j, j < i -> Gate.ready (health j) = false) ->
    exists t,
      Gate.wait_for_server server max health = (Ok tt, (t ++ [Gate.Probe i])%list)
      /\ Gate.probes (t ++ [Gate.Probe i]) = S i.
Proof.
  intros server max health i Hlt Hready Hbefore.
  destruct (@health_loop_first_ready server max health max 0 i)
    as [t [Heq Hcount]]; try lia; auto.
  exists t. split; [exact Heq|].
  rewrite probes_app. simpl. lia.
Qed.

Lemma gate_returns_at_first_ready_witness :
  exists t,
    Gate.wait_for_server "Qwen" 30
      (fun j => if j <? 2 then Gate.ClientError (Exception "connection refused")
                else Gate.Status 200)
    = (Ok tt, (t ++ [Gate.Probe 2])%list)
    /\ Gate.probes (t ++ [Gate.Probe 2]) = 3.
Proof.
  apply gate_returns_at_first_ready.
  - lia.
  - reflexivity.
  - intros j Hj. destruct j as [|[|j]]; [reflexivity | reflexivity | lia].
Defined.

(** When the client raises on every probe, the gate raises after exactly
    [max] probes, having slept after each one. *)
Theorem gate_raises_after_max_errors :
  forall (server : string) (max : nat) (health : nat -> Gate.probe),
    0 < max ->
    (forall j, j < max -> exists e, health j = Gate.ClientError e) ->
    exists t,
      Gate.wait_for_server server max health
      = (Raise (Exception (server ++ " server failed to start")%string), t)
      /\ Gate.probes t = max /\ Gate.sleeps t = max.
Proof.
  intros server max health Hpos Hall.
  destruct max as [|n]; [lia|].
  unfold Gate.wait_for_server.
  apply health_loop_errors_raise; [reflexivity|].
  intros j _ Hj. apply Hall. exact Hj.
Qed.

Lemma gate_raises_after_max_errors_witness :
  exists t,
    Gate.wait_for_server "DeepSeek" 30
      (fun _ => Gate.ClientError (Exception "timed out"))
    = (Raise (Exception "DeepSeek server failed to start"%string), t)
    /\ Gate.probes t = 30 /\ Gate.sleeps t = 30.
Proof.
  apply (@gate_raises_after_max_errors "DeepSeek" 30
           (fun _ => Gate.ClientError (Exception "timed out"))).
  - lia.
  - intros j _. eexists. reflexivity.
Defined.

(** When every probe is answered with a status other than 200, the gate
    issues its [max] probes back to back and then returns normally. *)
Lemma gate_falls_through_on_statuses :
  forall (server : string) (max : nat) (health : nat -> Gate.probe),
    (forall j, j < max -> exists code, health j = Gate.Status code /\ code <> 200%Z) ->
    Gate.wait_for_server server max health = (Ok tt, map Gate.Probe (seq 0 max)).
Proof.
  intros server max health Hall.
  unfold Gate.wait_for_server.
  apply health_loop_statuses_fall_through.
  intros j _ Hj. apply Hall. exact Hj.
Qed.

(** C1, at the failing input.  An endpoint that answers 503 to each of the 30
    probes never succeeds, yet the gate of both model stages returns normally:
    its trace holds the 30 probes and not one sleep, and no exception is
    raised. *)
Theorem gate_503_never_fails :
  let health := fun _ : nat => Gate.Status 503 in
  let run := Gate.wait_for_server "Qwen" settings.HEALTH_CHECK_MAX_RETRIES health in
  (forall i, Gate.ready (health i) = false)
  /\ fst run = Ok tt
  /\ Gate.probes (snd run) = 30
  /\ Gate.sleeps (snd run) = 0
  /\ Gate.wait_for_server "DeepSeek" settings.HEALTH_CHECK_MAX_RETRIES health = run.
Proof.
  cbv zeta. repeat split; reflexivity.
Qed.

(** ** Sorting the way [list.sort(reverse=True)] does *)

Section SortFacts.
Variable A : Type.
Variable lt : A -> A -> bool.

(** [<] on the sort keys is a strict weak order: transitive, and whatever is
    below [c] is below [b] or has [b] below [c]. *)
Hypothesis lt_trans :
  forall a b c, lt a b = true -> lt b c = true -> lt a c = true.
Hypothesis lt_split :
  forall a b c, lt a c = true -> lt a b = true \/ lt b c = true.

Lemma insert_perm (x : A) (l : list A) :
  Permutation (Retrieval.insert lt x l) (x :: l).
Proof.
  induction l as [|y l IH]; simpl.
  - apply Permutation_refl.
  - destruct (lt y x).
    + eapply perm_trans; [apply perm_skip, IH | apply perm_swap].
    + apply Permutation_refl.
Qed.

Lemma stable_sort_perm (l : list A) :
  Permutation (Retrieval.stable_sort lt l) l.
Proof.
  induction l as [|x l IH]; simpl.
  - apply perm_nil.
  - eapply perm_trans; [apply insert_perm | apply perm_skip, IH].
Qed.

Lemma sort_reverse_perm (l : list A) :
  Permutation (Retrieval.sort_reverse lt l) l.
Proof.
  unfold Retrieval.sort_reverse.
  eapply perm_trans; [apply Permutation_sym, Permutation_rev|].
  eapply perm_trans; [apply stable_sort_perm|].
  apply Permutation_sym, Permutation_rev.
Qed.

Section Stability.
(** [before a b]: [a] stands before [b] in the list handed to the sort. *)
Variable before : A -> A -> Prop.



End Stability.




End SortFacts.

(** ** Retrieval: ranking and batching *)


Section Enumerate.
Variable score : Type.

Lemma combine_seq_fst (l : list score) (a : nat) :
  map fst (combine (seq a (List.length l)) l) = seq a (List.length l).
Proof.
  revert a. induction l as [|x l IH]; intros a; simpl; [reflexivity|].
  f_equal. apply IH.
Qed.



Lemma scored_fst (scores : list score) :
  map fst (Retrieval.scored scores) = seq 0 (List.length scores).
Proof. apply combine_seq_fst. Qed.

End Enumerate.

Lemma traverse_getitem (A : Type) (l : list A) (idx : list nat) :
  Forall (fun i => i < List.length l) idx ->
  exists items,
    Retrieval.traverse (Retrieval.list_getitem l) idx = Ok items
    /\ Forall2 (fun i x => nth_error l i = Some x) idx items.
Proof.
  induction 1 as [|i idx Hi Hidx [items [Heq Hall]]]; simpl.
  - exists []. split; [reflexivity | constructor].
  - unfold Retrieval.list_getitem at 1.
    destruct (nth_error l i) as [x|] eqn:Hnth.
    + simpl. rewrite Heq. simpl. exists (x :: items).
      split; [reflexivity | constructor; assumption].
    + apply nth_error_None in Hnth. lia.
Qed.

Lemma list_slice_to_nonneg (A : Type) (l : list A) (k : Z) :
  (0 <= k)%Z -> Retrieval.list_slice_to l k = firstn (Z.to_nat k) l.
Proof.
  intros Hk. unfold Retrieval.list_slice_to, PyStr.clamp.
  replace (k <? 0)%Z with false by (symmetry; apply Z.ltb_ge; exact Hk).
  destruct (Z_le_gt_dec k (Z.of_nat (List.length l))) as [Hle|Hgt].
  - rewrite Z.min_r, Z.max_r by lia. reflexivity.
  - rewrite Z.min_l, Z.max_r by lia. rewrite Nat2Z.id.
    rewrite !firstn_all2; [reflexivity | lia | lia].
Qed.


Section TopK.
Variables embedding score : Type.
Variable score_lt : score -> score -> bool.
Variable embed_query : string -> result embedding.
Variable score_multi_vector : embedding -> list embedding -> result (list score).

Hypothesis score_lt_trans :
  forall a b c, score_lt a b = true -> score_lt b c = true -> score_lt a c = true.
Hypothesis score_lt_split :
  forall a b c, score_lt a c = true -> score_lt a b = true \/ score_lt b c = true.



(** The method walks [scores] along its first axis.  When that axis has a
    single entry, as for a one-row matrix of scores, there is one index to
    rank, and the method returns the first page alone. *)
Lemma top_k_single_entry :
  forall (query : string) (pdf_embeddings : list embedding)
         (first_page : image) (other_pages : list image)
         (k : Z) (q : embedding) (row : score),
    embed_query query = Ok q ->
    score_multi_vector q pdf_embeddings = Ok [row] ->
    (1 <= k)%Z ->
    Retrieval.get_top_k_pages score_lt embed_query score_multi_vector
      query pdf_embeddings (first_page :: other_pages) k = Ok [first_page].
Proof.
  intros query pdf_embeddings first_page other_pages k q row Hq Hscores Hk.
  unfold Retrieval.get_top_k_pages. rewrite Hq. simpl. rewrite Hscores. simpl.
  rewrite list_slice_to_nonneg by lia.
  rewrite firstn_all2 by (simpl; lia).
  reflexivity.
Qed.
End TopK.

(** Five pages with scores 5, 9, 5, 9, 1: the two pages scored 9 come first,
    in page order, then the first of the two pages scored 5. *)
Definition page (n : nat) : image := PIL (repeat x2a%byte n).

Definition five_pages : list image := map page [0; 1; 2; 3; 4].

Example top_3_of_five :
  Retrieval.get_top_k_pages Z.ltb (fun _ => Ok 0)
    (fun _ (_ : list nat) => Ok [5; 9; 5; 9; 1]%Z)
    "query" [0; 0; 0; 0; 0] five_pages 3
  = Ok [page 1; page 3; page 0].
Proof. reflexivity. Qed.


Lemma top_k_single_entry_witness :
  Retrieval.get_top_k_pages Z.ltb (fun _ => Ok 0)
    (fun _ (_ : list nat) => Ok [7%Z]) "query" [0; 0; 0; 0; 0] five_pages 3
  = Ok [page 0].
Proof.
  apply (@top_k_single_entry nat Z Z.ltb (fun _ => Ok 0) (fun _ _ => Ok [7%Z])
           "query" [0; 0; 0; 0; 0] (page 0) (map page [1; 2; 3; 4]) 3 0 7%Z).
  - reflexivity.
  - reflexivity.
  - lia.
Defined.

(** A negative [k] is read by the slice as a distance from the end. *)
Example slice_to_negative_bound :
  Retrieval.list_slice_to five_pages (-1) = map page [0; 1; 2; 3].
Proof. reflexivity. Qed.

Section Batching.
Variable A : Type.

Lemma range_step_slices (size : nat) (l : list A) :
  0 < size ->
  forall fuel start,
    List.length l <= fuel + start ->
    List.concat (map (fun i => Retrieval.list_slice l i (i + size))
              (Retrieval.range_step fuel start (List.length l) size))
    = skipn start l.
Proof.
  intros Hsize. induction fuel as [|fuel IH]; intros start Hfuel; simpl.
  - symmetry. apply skipn_all2. lia.
  - destruct (start <? List.length l) eqn:Hlt.
    + simpl. rewrite IH by lia.
      unfold Retrieval.list_slice.
      replace (start + size - start) with size by lia.
      etransitivity; [|apply (firstn_skipn size (skipn start l))].
      f_equal. rewrite skipn_skipn. f_equal. lia.
    + apply Nat.ltb_ge in Hlt. symmetry. apply skipn_all2. exact Hlt.
Qed.

(** Cutting a list into batches and gluing the batches gives the list back. *)
Lemma make_batches_concat (size : nat) (l : list A) :
  0 < size -> List.concat (Retrieval.make_batches size l) = l.
Proof.
  intros Hsize. unfold Retrieval.make_batches.
  rewrite range_step_slices by (auto; lia). reflexivity.
Qed.
End Batching.

Lemma make_batches_concat_witness :
  List.concat (Retrieval.make_batches 4 [1; 2; 3; 4; 5; 6; 7; 8; 9; 10])
  = [1; 2; 3; 4; 5; 6; 7; 8; 9; 10].
Proof.
  apply make_batches_concat. lia.
Defined.

Section Indexing.
Variable embedding : Type.
Variable convert_from_bytes : list byte -> result (list image).
Variable embed_images : list image -> result (list embedding).

(** [embeds page e]: [e] is the embedding the model computes for [page]. *)
Variable embeds : image -> embedding -> Prop.

(** The model answers every batch with one embedding per image, in the order
    of the batch. *)
Hypothesis embed_images_pointwise :
  forall batch, exists es, embed_images batch = Ok es /\ Forall2 embeds batch es.

Lemma embed_batches_pointwise (batches : list (list image)) :
  forall (done_pages : list image) (acc : list embedding),
    Forall2 embeds done_pages acc ->
    exists es,
      Retrieval.embed_batches embed_images batches acc = Ok es
      /\ Forall2 embeds (done_pages ++ List.concat batches) es.
Proof.
  induction batches as [|batch rest IH]; intros done_pages acc Hacc; simpl.
  - exists acc. rewrite app_nil_r. split; [reflexivity | exact Hacc].
  - destruct (embed_images_pointwise batch) as [es [Hes Hall]].
    rewrite Hes. simpl.
    destruct (IH (done_pages ++ batch) (acc ++ es)) as [es' [Heq Hall']].
    { apply Forall2_app; assumption. }
    exists es'. split; [exact Heq|].
    rewrite app_assoc. exact Hall'.
Qed.

(** C7.  A document that decodes to the pages [images] is indexed into the
    same pages, in the same order, and one embedding per page: the [i]-th
    embedding belongs to the [i]-th page, whatever the batch boundaries. *)
Theorem index_one_embedding_per_page :
  forall (pdf_data : list byte) (images : list image),
    convert_from_bytes pdf_data = Ok images ->
    exists pdf_embeddings,
      Retrieval.index_pdf_from_bytes convert_from_bytes embed_images pdf_data
      = Ok (pdf_embeddings, images)
      /\ Forall2 embeds images pdf_embeddings
      /\ List.length (combine images pdf_embeddings) = List.length images.
Proof.
  intros pdf_data images Hdecode.
  destruct (@embed_batches_pointwise
              (Retrieval.make_batches settings.PDF_BATCH_SIZE images) [] [])
    as [es [Heq Hall]]; [constructor|].
  simpl in Hall. rewrite make_batches_concat in Hall
    by (unfold settings.PDF_BATCH_SIZE; lia).
  exists es. split.
  - unfold Retrieval.index_pdf_from_bytes. rewrite Hdecode. simpl.
    rewrite Heq. reflexivity.
  - split; [exact Hall|].
    apply Forall2_length in Hall. rewrite length_combine. lia.
Qed.
End Indexing.

Lemma Forall2_map_eq (A B : Type) (f : A -> B) (l : list A) :
  Forall2 (fun a b => b = f a) l (map f l).
Proof. induction l; simpl; constructor; auto. Qed.

Definition nine_pages : list image := map page [0; 1; 2; 3; 4; 5; 6; 7; 8].

Definition size_of (p : image) : nat := List.length (png p).

Example nine_pages_in_three_batches :
  Retrieval.make_batches settings.PDF_BATCH_SIZE nine_pages
  = [map page [0; 1; 2; 3]; map page [4; 5; 6; 7]; map page [8]].
Proof. reflexivity. Qed.

Lemma index_one_embedding_per_page_witness :
  exists pdf_embeddings,
    Retrieval.index_pdf_from_bytes (fun _ => Ok nine_pages)
      (fun batch => Ok (map size_of batch)) [x25; x50; x44; x46]%byte
    = Ok (pdf_embeddings, nine_pages)
    /\ Forall2 (fun p e => e = size_of p) nine_pages pdf_embeddings
    /\ List.length (combine nine_pages pdf_embeddings) = List.length nine_pages.
Proof.
  apply (@index_one_embedding_per_page nat (fun _ => Ok nine_pages)
           (fun batch => Ok (map size_of batch)) (fun p e => e = size_of p)).
  - intros batch. exists (map size_of batch).
    split; [reflexivity | apply Forall2_map_eq].
  - reflexivity.
Defined.

(** ** The reasoning stage *)

Section QwenFacts.
Import Http Reasoning.
Variable QWEN_INSTRUCTIONS : string.
Variable health : string -> nat -> Gate.probe.
Variable post : string -> payload -> result pyval.

Definition page_part (img : image) : part :=
  image_part (Base64.b64encode (png img)).





End QwenFacts.

Definition canned_reply (text : string) : pyval :=
  PDict [("choices"%string,
          PList [PDict [("index"%string, PInt 0);
                        ("message"%string,
                         PDict [("role"%string, PStr "assistant");
                                ("content"%string, PStr text)])]])].


Example qwen_parts_in_order :
  Reasoning.build_content "Solve step by step." "Find I."
    (Some ["QUJD"%string]) (Some [Reasoning.Page (page 3)])
  = [Http.Text ("Solve step by step." ++ Http.nl ++ Http.nl ++ "Question: Find I.");
     Http.ImageUrl "data:image/png;base64,QUJD";
     Http.Text (Http.nl ++ Http.nl ++ "Relevant textbook pages for reference:");
     Http.ImageUrl "data:image/png;base64,Kioq"].
Proof. reflexivity. Qed.

(** ** Code extraction *)

Section ExtractionFacts.
Import CodeGen.
Local Open Scope string_scope.





End ExtractionFacts.

Definition quote : string := String Json.dquote EmptyString.





(** A JSON reply without a [code] entry is read as text. *)
Example json_without_code_uses_fence :
  CodeGen.extract_code
    ("{" ++ quote ++ "answer" ++ quote ++ ": " ++ quote ++ "```y=2```" ++ quote ++ "}")
  = Ok (PStr "y=2").
Proof. vm_compute. reflexivity. Qed.

(** A lone opening fence leaves the text as it is. *)
Example unclosed_python_fence_is_raw :
  CodeGen.extract_code ("```python" ++ Http.nl ++ "x=1")
  = Ok (PStr ("```python" ++ Http.nl ++ "x=1")).
Proof. vm_compute. reflexivity. Qed.

(** ** The diagram compiler *)




Section CompilerFacts.
Import Compiler.
Variable py_exec : pyval -> figures -> exec_outcome.
Variable savefig : figures -> savefig_outcome.

(** Execution and serialisation both go through. *)
Definition draws (code : pyval) (figs : figures) (png_bytes : list byte) : Prop :=
  exec_error (py_exec code figs) = None
  /\ saved (savefig (gcf (exec_figures (py_exec code figs)))) = inr png_bytes.

(** [exec] raises, or [savefig] does. *)
Definition fails_with (code : pyval) (figs : figures) (c : caught) : Prop :=
  exec_error (py_exec code figs) = Some c
  \/ (exec_error (py_exec code figs) = None
      /\ saved (savefig (gcf (exec_figures (py_exec code figs)))) = inl c).

Lemma draws_or_fails (code : pyval) (figs : figures) :
  (exists png_bytes, draws code figs png_bytes) \/ (exists c, fails_with code figs c).
Proof.
  unfold draws, fails_with.
  destruct (exec_error (py_exec code figs)) as [c|] eqn:Hexec.
  - right. exists c. left. reflexivity.
  - destruct (saved (savefig (gcf (exec_figures (py_exec code figs)))))
      as [c|png_bytes] eqn:Hsaved.
    + right. exists c. right. split; reflexivity.
    + left. exists png_bytes. split; reflexivity.
Qed.

Lemma run_when_draws (code : pyval) (figs : figures) (png_bytes : list byte) :
  draws code figs png_bytes ->
  run_generated_code py_exec savefig code figs
  = (success code (Base64.b64encode png_bytes)
       (exec_stdout (py_exec code figs)
          ++ savefig_stdout (savefig (gcf (exec_figures (py_exec code figs)))))
       (exec_stderr (py_exec code figs)
          ++ savefig_stderr (savefig (gcf (exec_figures (py_exec code figs))))),
     []).
Proof.
  intros [Hexec Hsaved]. unfold run_generated_code.
  rewrite Hexec, Hsaved. reflexivity.
Qed.

Lemma run_when_fails (code : pyval) (figs : figures) (c : caught) :
  fails_with code figs c ->
  fst (run_generated_code py_exec savefig code figs) = failure code c.
Proof.
  intros [Hexec|[Hexec Hsaved]]; unfold run_generated_code.
  - rewrite Hexec. reflexivity.
  - rewrite Hexec, Hsaved. reflexivity.
Qed.


(** A PNG stream opens with the eight-byte PNG signature, so [savefig] with
    [format='png'] never writes an empty one. *)
Hypothesis png_not_empty :
  forall figs png_bytes, saved (savefig figs) = inr png_bytes -> png_bytes <> [].


(** After a call that went through the registry is empty; after a call that
    failed it still holds every figure the program, or [savefig], opened. *)
Lemma figures_after_success (code : pyval) (figs : figures) (png_bytes : list byte) :
  draws code figs png_bytes ->
  snd (run_generated_code py_exec savefig code figs) = [].
Proof. intros Hd. rewrite (run_when_draws Hd). reflexivity. Qed.

Lemma figures_after_exec_error (code : pyval) (figs : figures) (c : caught) :
  exec_error (py_exec code figs) = Some c ->
  snd (run_generated_code py_exec savefig code figs)
  = exec_figures (py_exec code figs).
Proof. intros Hexec. unfold run_generated_code. rewrite Hexec. reflexivity. Qed.
End CompilerFacts.

(** A Python in which [raising_program] opens a figure and then divides by
    zero, any other program text opens a figure and returns, and anything
    that is not a string is refused by [exec]; a matplotlib whose [savefig]
    writes a PNG stream. *)
Definition raising_program : string :=
  ("import matplotlib.pyplot as plt" ++ Http.nl
     ++ "plt.figure()" ++ Http.nl ++ "1/0")%string.

Definition drawing_program : string :=
  ("import schemdraw" ++ Http.nl ++ "schemdraw.Drawing().draw()")%string.

Definition zero_division : Compiler.caught :=
  Compiler.Caught (Exception "division by zero")
    ("  File " ++ quote ++ "<string>" ++ quote ++ ", line 3, in <module>" ++ Http.nl
       ++ "ZeroDivisionError: division by zero" ++ Http.nl)%string.

Definition exec_type_error : Compiler.caught :=
  Compiler.Caught (Exception "exec() arg 1 must be a string, bytes or code object")
    ("TypeError: exec() arg 1 must be a string, bytes or code object" ++ Http.nl)%string.

Definition new_figure (figs : Compiler.figures) : Compiler.figures :=
  (figs ++ [S (list_max figs)])%list.

Definition demo_exec (code : pyval) (figs : Compiler.figures) : Compiler.exec_outcome :=
  match code with
  | PStr text =>
      if String.eqb text raising_program
      then Compiler.ExecOutcome (Some zero_division) "" "" (new_figure figs)
      else Compiler.ExecOutcome None "" "" (new_figure figs)
  | _ => Compiler.ExecOutcome (Some exec_type_error) "" "" figs
  end.

Definition png_signature : list byte :=
  [x89; x50; x4e; x47; x0d; x0a; x1a; x0a]%byte.

Definition demo_savefig (figs : Compiler.figures) : Compiler.savefig_outcome :=
  Compiler.SavefigOutcome (inr png_signature) "" "".


Lemma figures_after_success_witness :
  snd (Compiler.run_generated_code demo_exec demo_savefig (PStr drawing_program) [3])
  = [].
Proof.
  apply (@figures_after_success demo_exec demo_savefig (PStr drawing_program) [3]
           png_signature).
  split; reflexivity.
Defined.

(** C8, at the failing input.  A program that opens a figure and then raises
    makes the compiler return its failure record with figure 1 still open:
    [plt.close('all')] sits on the path that returns the image and is not
    reached.  The same Python running a program that draws leaves nothing
    open. *)
Theorem failed_compile_leaves_figure_open :
  let failed :=
    Compiler.run_generated_code demo_exec demo_savefig (PStr raising_program) [] in
  let drawn :=
    Compiler.run_generated_code demo_exec demo_savefig (PStr drawing_program) [] in
  dict_get (fst failed) "success" = Some (PBool false)
  /\ snd failed = [1]
  /\ snd failed <> Compiler.close_all (snd failed)
  /\ dict_get (fst drawn) "success" = Some (PBool true)
  /\ snd drawn = [].
Proof.
  cbv zeta. repeat split; try reflexivity.
  vm_compute. discriminate.
Qed.

(** ** The orchestrator *)

(** The stages of the [try] block that can raise.  Turning the uploaded
    images into base64 cannot. *)
Inductive stage : Type :=
| ResolveQwen
| ResolveDeepseek
| Indexing
| Scoring
| Reasoning
| CodeGeneration.

Section OrchestratorFacts.
Import Orchestrator.
Variable W : World.
Variable user_query : string.
Variable pdf_data : list byte.
Variable user_images_bytes : option (list (list byte)).

(** The stage calls of the [try] block, as [pipeline] makes them. *)
Local Abbreviation run_index :=
  (Retrieval.index_pdf_from_bytes (convert_from_bytes W) (embed_images W) pdf_data).

Local Abbreviation run_top_k pdf_embeddings pdf_images :=
  (Retrieval.get_top_k_pages (score_lt W) (embed_query W) (score_multi_vector W)
     user_query pdf_embeddings pdf_images 3).

Local Abbreviation run_qwen qwen_server_url relevant_pages :=
  (Reasoning.analyze_question_with_qwen_url (QWEN_INSTRUCTIONS W) (health W) (post W)
     qwen_server_url user_query (Some (b64_images user_images_bytes))
     (Some (map Reasoning.Page relevant_pages))).

Local Abbreviation run_deepseek deepseek_server_url textual_solution :=
  (CodeGen.generate_circuit_code (DEEPSEEK_PROMPT_TEMPLATE W) (health W) (post W)
     deepseek_server_url user_query textual_solution).

(** The stages up to and including scoring went through. *)
Definition retrieved (qwen_url deepseek_url : string) (relevant_pages : list image)
    : Prop :=
  qwen_web_url W = Ok qwen_url
  /\ deepseek_web_url W = Ok deepseek_url
  /\ exists pdf_embeddings pdf_images,
       run_index = Ok (pdf_embeddings, pdf_images)
       /\ run_top_k pdf_embeddings pdf_images = Ok relevant_pages.

(** [stage_raises s e]: the request runs up to stage [s], which raises [e]. *)
Inductive stage_raises : stage -> exn -> Prop :=
| raises_resolve_qwen e :
    qwen_web_url W = Raise e -> stage_raises ResolveQwen e
| raises_resolve_deepseek qwen_url e :
    qwen_web_url W = Ok qwen_url ->
    deepseek_web_url W = Raise e -> stage_raises ResolveDeepseek e
| raises_indexing qwen_url deepseek_url e :
    qwen_web_url W = Ok qwen_url ->
    deepseek_web_url W = Ok deepseek_url ->
    run_index = Raise e -> stage_raises Indexing e
| raises_scoring qwen_url deepseek_url pdf_embeddings pdf_images e :
    qwen_web_url W = Ok qwen_url ->
    deepseek_web_url W = Ok deepseek_url ->
    run_index = Ok (pdf_embeddings, pdf_images) ->
    run_top_k pdf_embeddings pdf_images = Raise e -> stage_raises Scoring e
| raises_reasoning qwen_url deepseek_url relevant_pages e :
    retrieved qwen_url deepseek_url relevant_pages ->
    run_qwen qwen_url relevant_pages = Raise e -> stage_raises Reasoning e
| raises_code_generation qwen_url deepseek_url relevant_pages textual_solution e :
    retrieved qwen_url deepseek_url relevant_pages ->
    run_qwen qwen_url relevant_pages = Ok textual_solution ->
    run_deepseek deepseek_url textual_solution = Raise e ->
    stage_raises CodeGeneration e.

Lemma bind_of_ok {A B : Type} (r : result A) (a : A) (k : A -> result B) :
  r = Ok a -> bind r k = k a.
Proof. intros ->. reflexivity. Qed.

Lemma bind_of_raise {A B : Type} (r : result A) (e : exn) (k : A -> result B) :
  r = Raise e -> bind r k = Raise e.
Proof. intros ->. reflexivity. Qed.

Lemma stage_raises_pipeline (s : stage) (e : exn) :
  stage_raises s e -> pipeline W user_query pdf_data user_images_bytes = Raise e.
Proof.
  intros H. unfold pipeline. cbv zeta.
  destruct H as [e Hq | q e Hq Hd | q d e Hq Hd Hi | q d es ps e Hq Hd Hi Hk
                | q d pages e Hret Hs | q d pages sol e Hret Hs Hc];
    try destruct Hret as [Hq [Hd [es [ps [Hi Hk]]]]];
    repeat first
      [ apply bind_of_raise; assumption
      | erewrite bind_of_ok by eassumption
      | progress cbv beta iota ].
Qed.

(** Conversely, the [try] block raises only when one of the stages does. *)
Lemma pipeline_raise_stage (e : exn) :
  pipeline W user_query pdf_data user_images_bytes = Raise e ->
  exists s, stage_raises s e.
Proof.
  unfold pipeline. cbv zeta. intros H.
  apply bind_raise in H. destruct H as [Hq|[qwen_url [Hq H]]];
    [exists ResolveQwen; constructor; exact Hq|].
  apply bind_raise in H. destruct H as [Hd|[deepseek_url [Hd H]]];
    [exists ResolveDeepseek; econstructor; eassumption|].
  apply bind_raise in H. destruct H as [Hi|[[pdf_embeddings pdf_images] [Hi H]]];
    [exists Indexing; econstructor; eassumption|].
  apply bind_raise in H. destruct H as [Hk|[relevant_pages [Hk H]]];
    [exists Scoring; econstructor; eassumption|].
  assert (Hret : retrieved qwen_url deepseek_url relevant_pages).
  { split; [exact Hq|]. split; [exact Hd|].
    exists pdf_embeddings, pdf_images. split; [exact Hi | exact Hk]. }
  apply bind_raise in H. destruct H as [Hs|[textual_solution [Hs H]]];
    [exists Reasoning; econstructor; eassumption|].
  apply bind_raise in H. destruct H as [Hc|[circuit_schemdraw [Hc H]]];
    [exists CodeGeneration; econstructor; eassumption | discriminate].
Qed.

(** C2, as amended.  The entry point always returns a record.  When a stage
    raises [e], the record is the failure envelope: [success] is [False],
    [error] holds [str(e)], and there is no [textual_solution],
    [circuit_diagram] or [metadata] entry; next to the flag it holds the error
    message and the question, and nothing else. *)
Theorem solve_never_raises :
  (exists result, solve_ee_problem W user_query pdf_data user_images_bytes = Ok result)
  /\ (forall s e,
        stage_raises s e ->
        exists result,
          solve_ee_problem W user_query pdf_data user_images_bytes = Ok result
          /\ dict_get result "success" = Some (PBool false)
          /\ dict_get result "error" = Some (PStr (str_of e))
          /\ dict_get result "textual_solution" = None
          /\ dict_get result "circuit_diagram" = None
          /\ dict_get result "metadata" = None
          /\ dict_keys result = ["success"; "error"; "question"]%string).
Proof.
  split.
  - unfold solve_ee_problem.
    destruct (pipeline W user_query pdf_data user_images_bytes); eauto.
  - intros s e Hs. apply stage_raises_pipeline in Hs.
    unfold solve_ee_problem. rewrite Hs.
    eexists. split; [reflexivity|]. repeat split; reflexivity.
Qed.

(** C6.  When every stage before the compiler goes through and the generated
    program fails to compile, the envelope still has [success = True] and the
    solution text, and its [circuit_diagram] is the compiler's failure
    record, with [success = False] and the traceback. *)
Theorem diagram_failure_is_not_fatal :
  forall (qwen_url deepseek_url : string) (relevant_pages : list image)
         (textual_solution circuit_schemdraw : pyval) (c : Compiler.caught),
    retrieved qwen_url deepseek_url relevant_pages ->
    run_qwen qwen_url relevant_pages = Ok textual_solution ->
    run_deepseek deepseek_url textual_solution = Ok circuit_schemdraw ->
    fails_with (py_exec W) (savefig W) circuit_schemdraw (open_figures W) c ->
    exists result diagram,
      solve_ee_problem W user_query pdf_data user_images_bytes = Ok result
      /\ dict_get result "success" = Some (PBool true)
      /\ dict_get result "textual_solution" = Some textual_solution
      /\ dict_get result "circuit_diagram" = Some (PDict diagram)
      /\ dict_get diagram "success" = Some (PBool false)
      /\ dict_get diagram "traceback" = Some (PStr (Compiler.format_exc c)).
Proof.
  intros qwen_url deepseek_url relevant_pages textual_solution circuit_schemdraw c
    [Hq [Hd [pdf_embeddings [pdf_images [Hi Hk]]]]] Hs Hc Hfail.
  unfold solve_ee_problem, pipeline.
  rewrite Hq, Hd. cbn [bind]. rewrite Hi. cbn [bind]. rewrite Hk. cbn [bind].
  rewrite Hs. cbn [bind]. rewrite Hc. cbn [bind].
  rewrite (run_when_fails Hfail).
  eexists. eexists. split; [reflexivity|]. repeat split; reflexivity.
Qed.

(** What the [try] block returns is a success envelope. *)
Lemma pipeline_ok_envelope (result : dict) :
  pipeline W user_query pdf_data user_images_bytes = Ok result ->
  exists textual_solution circuit_result relevant_pages circuit_schemdraw,
    result = envelope W user_query textual_solution circuit_result relevant_pages
               (b64_images user_images_bytes) circuit_schemdraw.
Proof.
  unfold pipeline. cbv zeta. intros H.
  apply bind_ok in H. destruct H as [qwen_url [_ H]].
  apply bind_ok in H. destruct H as [deepseek_url [_ H]].
  apply bind_ok in H. destruct H as [[pdf_embeddings pdf_images] [_ H]].
  apply bind_ok in H. destruct H as [relevant_pages [_ H]].
  apply bind_ok in H. destruct H as [textual_solution [_ H]].
  apply bind_ok in H. destruct H as [circuit_schemdraw [_ H]].
  inversion H. eauto.
Qed.

(** C10.  A returned envelope whose [success] is [False] holds the question
    as it was asked, next to the error message. *)
Theorem failure_envelope_keeps_question :
  forall result,
    solve_ee_problem W user_query pdf_data user_images_bytes = Ok result ->
    dict_get result "success" = Some (PBool false) ->
    dict_get result "question" = Some (PStr user_query)
    /\ exists msg, dict_get result "error" = Some (PStr msg).
Proof.
  intros result Hsolve Hflag. unfold solve_ee_problem in Hsolve.
  destruct (pipeline W user_query pdf_data user_images_bytes) as [r|e] eqn:Hp.
  - exfalso. inversion Hsolve; subst. clear Hsolve.
    apply pipeline_ok_envelope in Hp.
    destruct Hp as [sol [diagram [pages [code ->]]]].
    discriminate Hflag.
  - inversion Hsolve; subst. split; [reflexivity | eexists; reflexivity].
Qed.
End OrchestratorFacts.


(** ** A concrete world

    One page, two servers that are up and answer with canned text, the Python
    of [demo_exec].  [pdf_ok] says whether the document decodes; [program] is
    the text the code model replies with. *)
Definition demo_world (pdf_ok : bool) (program : string) : Orchestrator.World :=
  {| Orchestrator.embedding := nat;
     Orchestrator.score := Z;
     Orchestrator.score_lt := Z.ltb;
     Orchestrator.convert_from_bytes :=
       fun _ => if pdf_ok then Ok [page 1]
                else Raise (Exception "Unable to get page count.");
     Orchestrator.embed_images := fun batch => Ok (map size_of batch);
     Orchestrator.embed_query := fun _ => Ok 0;
     Orchestrator.score_multi_vector := fun _ es => Ok (map Z.of_nat es);
     Orchestrator.qwen_web_url := Ok "https://qwen"%string;
     Orchestrator.deepseek_web_url := Ok "https://deepseek"%string;
     Orchestrator.health := fun _ _ => Gate.Status 200;
     Orchestrator.post :=
       fun url _ => if String.eqb url "https://qwen"
                    then Ok (canned_reply "I = 2 A")
                    else Ok (canned_reply program);
     Orchestrator.QWEN_INSTRUCTIONS := "Solve step by step.";
     Orchestrator.DEEPSEEK_PROMPT_TEMPLATE := "Q: {question} S: {solution}";
     Orchestrator.py_exec := demo_exec;
     Orchestrator.savefig := demo_savefig;
     Orchestrator.open_figures := [];
     Orchestrator.total_processing_time := "1.00s" |}.

Definition pdf_header : list byte := [x25; x50; x44; x46]%byte.

(** A document that does not decode. *)
Example decode_error_envelope :
  Orchestrator.solve_ee_problem (demo_world false drawing_program)
    "Find I." pdf_header None
  = Ok [("success"%string, PBool false);
        ("error"%string, PStr "Failed to process PDF: Unable to get page count.");
        ("question"%string, PStr "Find I.")].
Proof. vm_compute. reflexivity. Qed.

(** One page, canned replies and a program that draws. *)
Example one_page_end_to_end :
  exists result diagram metadata img,
    Orchestrator.solve_ee_problem (demo_world true drawing_program)
      "Find I." pdf_header None = Ok result
    /\ dict_get result "success" = Some (PBool true)
    /\ dict_get result "metadata" = Some (PDict metadata)
    /\ dict_get metadata "num_relevant_pages" = Some (PInt 1)
    /\ dict_get result "circuit_diagram" = Some (PDict diagram)
    /\ dict_get diagram "image_base64" = Some (PStr img)
    /\ img <> EmptyString.
Proof.
  do 4 eexists. split; [vm_compute; reflexivity|].
  repeat split; try reflexivity. discriminate.
Qed.

(** Next to the flag, the record holds an error message and nothing else. *)
Definition only_error_present (result : dict) : Prop :=
  forall key, has_key result key = true -> key = "success"%string \/ key = "error"%string.

(** C2 as stated fails on a document that does not decode: indexing raises,
    the entry point returns the failure envelope, and the envelope holds the
    question besides the error message. *)
Lemma failure_envelope_holds_more_than_error :
  exists e result,
    stage_raises (demo_world false drawing_program) "Find I." pdf_header None
      Indexing e
    /\ Orchestrator.solve_ee_problem (demo_world false drawing_program)
         "Find I." pdf_header None = Ok result
    /\ dict_get result "success" = Some (PBool false)
    /\ ~ only_error_present result.
Proof.
  exists (Exception "Failed to process PDF: Unable to get page count.").
  eexists. split; [|split; [vm_compute; reflexivity|split; [reflexivity|]]].
  - eapply raises_indexing; reflexivity.
  - intros Honly. destruct (Honly "question"%string) as [H|H];
      [reflexivity | discriminate H | discriminate H].
Qed.

Lemma diagram_failure_is_not_fatal_witness :
  exists result diagram,
    Orchestrator.solve_ee_problem (demo_world true raising_program)
      "Find I." pdf_header None = Ok result
    /\ dict_get result "success" = Some (PBool true)
    /\ dict_get result "textual_solution" = Some (PStr "I = 2 A")
    /\ dict_get result "circuit_diagram" = Some (PDict diagram)
    /\ dict_get diagram "success" = Some (PBool false)
    /\ dict_get diagram "traceback"
       = Some (PStr (Compiler.format_exc zero_division)).
Proof.
  apply (@diagram_failure_is_not_fatal (demo_world true raising_program)
           "Find I." pdf_header None "https://qwen" "https://deepseek"
           [page 1] (PStr "I = 2 A") (PStr raising_program) zero_division).
  - split; [reflexivity|]. split; [reflexivity|].
    exists [1], [page 1]. split; vm_compute; reflexivity.
  - vm_compute. reflexivity.
  - vm_compute. reflexivity.
  - left. vm_compute. reflexivity.
Defined.

Lemma failure_envelope_keeps_question_witness :
  dict_get (Orchestrator.failure_envelope "Find I."
              (Exception "Failed to process PDF: Unable to get page count."))
    "question" = Some (PStr "Find I.")
  /\ exists msg,
       dict_get (Orchestrator.failure_envelope "Find I."
                   (Exception "Failed to process PDF: Unable to get page count."))
         "error" = Some (PStr msg).
Proof.
  apply (@failure_envelope_keeps_question (demo_world false drawing_program)
           "Find I." pdf_header None).
  - vm_compute. reflexivity.
  - reflexivity.
Defined.

(** A server that answers 503 to every probe is posted to all the same. *)
Example qwen_posts_to_a_server_that_is_not_ready :
  Reasoning.analyze_question_with_qwen_url "Solve step by step."
    (fun _ _ => Gate.Status 503) (fun _ _ => Ok (canned_reply "I = 2 A"))
    "https://qwen" "Find I." None None
  = Ok (PStr "I = 2 A").
Proof. vm_compute. reflexivity. Qed.

Example b64_Man : Base64.b64encode [x4d; x61; x6e]%byte = "TWFu"%string.
Proof. reflexivity. Qed.

Example b64_Ma : Base64.b64encode [x4d; x61]%byte = "TWE="%string.
Proof. reflexivity. Qed.

Example b64_M : Base64.b64encode [x4d]%byte = "TQ=="%string.
Proof. reflexivity. Qed.

Example strip_both : PyStr.strip "  x=1 "%string = "x=1"%string.
Proof. reflexivity. Qed.

Example rfind_overlap : PyStr.rfind "````"%string "```"%string = 1%Z.
Proof. reflexivity. Qed.

(** * Further properties of the stages *)

(** ** The health-check loop: when it raises, and how long it sleeps *)

(** The seconds a trace spends in [time.sleep]. *)
Fixpoint slept (t : list Gate.event) : Z :=
  match t with
  | [] => 0
  | Gate.Probe _ :: t' => slept t'
  | Gate.Sleep secs :: t' => secs + slept t'
  end.

(** How many of the probes [i], [i+1], ..., [i+n-1] end in a client error. *)
Fixpoint client_errors (health : nat -> Gate.probe) (i n : nat) : nat :=
  match n with
  | 0 => 0
  | S n' =>
      match health i with
      | Gate.ClientError _ => S (client_errors health (S i) n')
      | Gate.Status _ => client_errors health (S i) n'
      end
  end.

Section GateAccounting.
Import Gate.
Variable server : string.
Variable max : nat.
Variable health : nat -> probe.

Lemma health_loop_raise_inv :
  forall todo i0 e,
    i0 + todo = max ->
    fst (health_loop server max health i0 todo) = Raise e ->
    e = Exception (server ++ " server failed to start")%string
    /\ probes (snd (health_loop server max health i0 todo)) = todo
    /\ (forall j, i0 <= j -> j < max -> ready (health j) = false)
    /\ exists err, health (max - 1) = ClientError err.
Proof.
  induction todo as [|todo IH]; intros i0 e Hmax Hraise; simpl in *.
  - discriminate.
  - destruct (health i0) as [code|err] eqn:Hprobe.
    + destruct (code =? 200)%Z eqn:Hcode; [simpl in Hraise; discriminate|].
      destruct (health_loop server max health (S i0) todo) as [r t] eqn:Hloop.
      simpl in *. destruct (IH (S i0) e) as [He [Hp [Hnot Hlast]]];
        [lia | rewrite Hloop; exact Hraise |].
      rewrite Hloop in Hp. simpl in Hp.
      split; [exact He|]. split; [lia|]. split; [|exact Hlast].
      intros j Hj1 Hj2. destruct (Nat.eq_dec j i0) as [->|Hne].
      * rewrite Hprobe. simpl. exact Hcode.
      * apply Hnot; lia.
    + destruct (i0 =? max - 1) eqn:Hend.
      * apply Nat.eqb_eq in Hend. simpl in *.
        assert (todo = 0) by lia. subst todo.
        inversion Hraise. split; [reflexivity|]. split; [reflexivity|].
        split; [|exists err; rewrite <- Hend; exact Hprobe].
        intros j Hj1 Hj2. assert (j = i0) by lia. subst j.
        rewrite Hprobe. reflexivity.
      * destruct (health_loop server max health (S i0) todo) as [r t] eqn:Hloop.
        simpl in *. destruct (IH (S i0) e) as [He [Hp [Hnot Hlast]]];
          [lia | rewrite Hloop; exact Hraise |].
        rewrite Hloop in Hp. simpl in Hp.
        split; [exact He|]. split; [lia|]. split; [|exact Hlast].
        intros j Hj1 Hj2. destruct (Nat.eq_dec j i0) as [->|Hne].
        -- rewrite Hprobe. reflexivity.
        -- apply Hnot; lia.
Qed.

Lemma health_loop_accounting :
  forall todo i0,
    let t := snd (health_loop server max health i0 todo) in
    probes t <= todo
    /\ sleeps t = client_errors health i0 (probes t)
    /\ slept t = (settings.HEALTH_CHECK_SLEEP * Z.of_nat (sleeps t))%Z.
Proof.
  induction todo as [|todo IH]; intros i0; cbv zeta.
  - cbn. repeat split; lia.
  - specialize (IH (S i0)). cbv zeta in IH. cbn [health_loop].
    destruct (health i0) as [code|err] eqn:Hprobe.
    + destruct (code =? 200)%Z.
      * cbn [snd probes sleeps slept client_errors]. rewrite Hprobe.
        repeat split; lia.
      * destruct (health_loop server max health (S i0) todo) as [r t].
        cbn [snd probes sleeps slept client_errors] in *. rewrite Hprobe.
        destruct IH as [Hp [Hs Hz]].
        repeat split; [lia | exact Hs | exact Hz].
    + destruct (i0 =? max - 1).
      * cbn [snd probes sleeps slept client_errors]. rewrite Hprobe.
        unfold settings.HEALTH_CHECK_SLEEP. repeat split; lia.
      * destruct (health_loop server max health (S i0) todo) as [r t].
        cbn [snd probes sleeps slept client_errors] in *. rewrite Hprobe.
        destruct IH as [Hp [Hs Hz]].
        repeat split; [lia | lia | ].
        rewrite Hz, Nat2Z.inj_succ. unfold settings.HEALTH_CHECK_SLEEP. lia.
Qed.

Lemma client_errors_le (i n : nat) : client_errors health i n <= n.
Proof.
  revert i. induction n as [|n IH]; intros i; simpl; [lia|].
  specialize (IH (S i)). destruct (health i); lia.
Qed.
End GateAccounting.

(** The gate raises in one situation only: it has issued all [max] probes,
    none was answered with 200, and the last one ended in a client error.
    The exception carries the fixed text for the server. *)
Theorem gate_raises_only_at_the_end :
  forall (server : string) (max : nat) (health : nat -> Gate.probe) (e : exn),
    fst (Gate.wait_for_server server max health) = Raise e ->
    str_of e = (server ++ " server failed to start")%string
    /\ Gate.probes (snd (Gate.wait_for_server server max health)) = max
    /\ (forall j, j < max -> Gate.ready (health j) = false)
    /\ exists err, health (max - 1) = Gate.ClientError err.
Proof.
  intros server max health e Hraise. unfold Gate.wait_for_server in *.
  destruct (@health_loop_raise_inv server max health max 0 e)
    as [He [Hp [Hnot Hlast]]]; [reflexivity | exact Hraise |].
  subst e. split; [reflexivity|]. split; [exact Hp|].
  split; [|exact Hlast]. intros j Hj. apply Hnot; lia.
Qed.

Lemma gate_raises_only_at_the_end_witness :
  str_of (Exception "Qwen server failed to start") = "Qwen server failed to start"%string
  /\ Gate.probes
       (snd (Gate.wait_for_server "Qwen" 3
               (fun j => if j <? 2 then Gate.Status 503
                         else Gate.ClientError (Exception "timed out"))))
     = 3
  /\ (forall j, j < 3 ->
        Gate.ready ((fun j => if j <? 2 then Gate.Status 503
                              else Gate.ClientError (Exception "timed out")) j)
        = false)
  /\ exists err,
       (fun j => if j <? 2 then Gate.Status 503
                 else Gate.ClientError (Exception "timed out")) (3 - 1)
       = Gate.ClientError err.
Proof.
  apply (@gate_raises_only_at_the_end "Qwen" 3
           (fun j => if j <? 2 then Gate.Status 503
                     else Gate.ClientError (Exception "timed out"))
           (Exception "Qwen server failed to start")).
  reflexivity.
Defined.

(** The gate sleeps after a probe exactly when that probe ended in a client
    error, each time for [HEALTH_CHECK_SLEEP] seconds; it never issues more
    than [max] probes, so it never sleeps for more than [max] times
    [HEALTH_CHECK_SLEEP] seconds. *)
Theorem gate_sleeps_after_client_errors_only :
  forall (server : string) (max : nat) (health : nat -> Gate.probe),
    let t := snd (Gate.wait_for_server server max health) in
    Gate.probes t <= max
    /\ Gate.sleeps t = client_errors health 0 (Gate.probes t)
    /\ slept t = (settings.HEALTH_CHECK_SLEEP * Z.of_nat (Gate.sleeps t))%Z
    /\ (slept t <= settings.HEALTH_CHECK_SLEEP * Z.of_nat max)%Z.
Proof.
  intros server max health. cbv zeta. unfold Gate.wait_for_server.
  destruct (@health_loop_accounting server max health max 0) as [Hp [Hs Hz]].
  split; [exact Hp|]. split; [exact Hs|]. split; [exact Hz|].
  rewrite Hz.
  pose proof (client_errors_le health 0
                (Gate.probes (snd (Gate.health_loop server max health 0 max)))).
  unfold settings.HEALTH_CHECK_SLEEP. lia.
Qed.

(** ** Retrieval: what [get_top_k_pages] returns for any scorer and any [k] *)

Lemma reraise_ok (A : Type) (prefix : string) (r : result A) (a : A) :
  Retrieval.reraise prefix r = Ok a -> r = Ok a.
Proof. destruct r; simpl; intros H; [exact H | discriminate]. Qed.

Lemma traverse_getitem_inv (A : Type) (l : list A) (idx : list nat) :
  forall items,
    Retrieval.traverse (Retrieval.list_getitem l) idx = Ok items ->
    Forall2 (fun i x => nth_error l i = Some x) idx items.
Proof.
  induction idx as [|i idx IH]; intros items H; simpl in H.
  - inversion H. constructor.
  - apply bind_ok in H. destruct H as [x [Hx H]].
    apply bind_ok in H. destruct H as [xs [Hxs H]].
    inversion H; subst. constructor; [|apply IH; exact Hxs].
    unfold Retrieval.list_getitem in Hx.
    destruct (nth_error l i); [inversion Hx; reflexivity | discriminate].
Qed.

Lemma traverse_out_of_range (A : Type) (l : list A) (idx : list nat) :
  Exists (fun i => List.length l <= i) idx ->
  Retrieval.traverse (Retrieval.list_getitem l) idx
  = Raise (Exception "list index out of range").
Proof.
  induction idx as [|i idx IH]; intros H; [inversion H|].
  simpl. unfold Retrieval.list_getitem at 1.
  destruct (nth_error l i) as [x|] eqn:Hnth; simpl; [|reflexivity].
  inversion H as [? ? Hi|? ? Hrest]; subst.
  - apply nth_error_None in Hi. congruence.
  - rewrite (IH Hrest). reflexivity.
Qed.

(** The order in which [get_top_k_pages] ranks the indices of [scores]. *)
Definition ranking (score : Type) (score_lt : score -> score -> bool)
    (scores : list score) : list nat :=
  map fst (Retrieval.sort_reverse (Retrieval.by_score score_lt)
             (Retrieval.scored scores)).

Lemma ranking_perm (score : Type) (score_lt : score -> score -> bool)
    (scores : list score) :
  Permutation (ranking score_lt scores) (seq 0 (List.length scores)).
Proof.
  unfold ranking. rewrite <- scored_fst. apply Permutation_map.
  apply sort_reverse_perm.
Qed.

Lemma ranking_NoDup (score : Type) (score_lt : score -> score -> bool)
    (scores : list score) :
  NoDup (ranking score_lt scores).
Proof.
  eapply Permutation_NoDup; [apply Permutation_sym, ranking_perm | apply seq_NoDup].
Qed.

Lemma NoDup_firstn (A : Type) (n : nat) (l : list A) :
  NoDup l -> NoDup (firstn n l).
Proof.
  intros H. rewrite <- (firstn_skipn n l) in H.
  apply NoDup_app_remove_r in H. exact H.
Qed.

Lemma list_slice_to_negative (A : Type) (l : list A) (k : Z) :
  (k < 0)%Z ->
  Retrieval.list_slice_to l k
  = firstn (Z.to_nat (Z.of_nat (List.length l) + k)) l.
Proof.
  intros Hk. unfold Retrieval.list_slice_to, PyStr.clamp.
  replace (k <? 0)%Z with true by (symmetry; apply Z.ltb_lt; exact Hk).
  f_equal. lia.
Qed.

Section TopKEdges.
Variables embedding score : Type.
Variable score_lt : score -> score -> bool.
Variable embed_query : string -> result embedding.
Variable score_multi_vector : embedding -> list embedding -> result (list score).

Lemma top_k_ok_inv (query : string) (pdf_embeddings : list embedding)
    (images : list image) (k : Z) (pages : list image) :
  Retrieval.get_top_k_pages score_lt embed_query score_multi_vector
    query pdf_embeddings images k = Ok pages ->
  exists scores,
    Forall2 (fun i page => nth_error images i = Some page)
      (Retrieval.list_slice_to (ranking score_lt scores) k) pages.
Proof.
  unfold Retrieval.get_top_k_pages. intros H.
  apply reraise_ok in H.
  apply bind_ok in H. destruct H as [q [_ H]].
  apply bind_ok in H. destruct H as [scores [_ H]].
  exists scores. apply traverse_getitem_inv in H.
  unfold Retrieval.list_slice_to in *. unfold ranking.
  rewrite length_map, firstn_map. exact H.
Qed.

Lemma top_k_ok_bounds :
  forall (query : string) (pdf_embeddings : list embedding)
         (images : list image) (k : Z) (pages : list image),
    Retrieval.get_top_k_pages score_lt embed_query score_multi_vector
      query pdf_embeddings images k = Ok pages ->
    Forall (fun page => In page images) pages
    /\ List.length pages <= List.length images
    /\ ((0 <= k)%Z -> List.length pages <= Z.to_nat k).
Proof.
  intros query pdf_embeddings images k pages H.
  apply top_k_ok_inv in H. destruct H as [scores Hall].
  set (idx := Retrieval.list_slice_to (ranking score_lt scores) k) in *.
  assert (Hlen : List.length idx = List.length pages)
    by (eapply Forall2_length; exact Hall).
  assert (Hdup : NoDup idx)
    by (apply NoDup_firstn, ranking_NoDup).
  assert (Hbound : incl idx (seq 0 (List.length images))).
  { intros i Hi. apply in_seq. split; [lia|]. simpl.
    clear - Hall Hi. induction Hall as [|j p idx' pages' Hj _ IH];
      [contradiction|].
    destruct Hi as [->|Hi]; [|apply IH; exact Hi].
    apply nth_error_Some. congruence. }
  split; [|split].
  - clear - Hall. induction Hall as [|j p idx' pages' Hj _ IH]; constructor.
    + eapply nth_error_In. exact Hj.
    + exact IH.
  - rewrite <- Hlen. apply NoDup_incl_length in Hbound; [|exact Hdup].
    rewrite length_seq in Hbound. exact Hbound.
  - intros Hk. rewrite <- Hlen. subst idx.
    rewrite list_slice_to_nonneg by exact Hk. apply firstn_le_length.
Qed.

(** Whatever the scorer returns, a result of [get_top_k_pages] holds pages of
    the document only, no more of them than the document has, and for
    [k >= 0] no more than [k]. *)
Theorem top_k_returns_pages_of_the_document :
  forall (query : string) (pdf_embeddings : list embedding)
         (images : list image) (k : Z) (pages : list image),
    Retrieval.get_top_k_pages score_lt embed_query score_multi_vector
      query pdf_embeddings images k = Ok pages ->
    Forall (fun page => In page images) pages
    /\ List.length pages <= List.length images
    /\ ((0 <= k)%Z -> List.length pages <= Z.to_nat k).
Proof. exact top_k_ok_bounds. Qed.

(** A negative [k] does not fail and does not return an empty list: with one
    score per page, [k = -m] returns the top [N - m] pages of the ranking
    (none when [m >= N]). *)
Theorem top_k_negative_k :
  forall (query : string) (pdf_embeddings : list embedding) (images : list image)
         (k : Z) (q : embedding) (scores : list score),
    embed_query query = Ok q ->
    score_multi_vector q pdf_embeddings = Ok scores ->
    List.length scores = List.length images ->
    (k < 0)%Z ->
    exists pages,
      Retrieval.get_top_k_pages score_lt embed_query score_multi_vector
        query pdf_embeddings images k = Ok pages
      /\ Forall2 (fun i page => nth_error images i = Some page)
           (firstn (Z.to_nat (Z.of_nat (List.length images) + k))
              (ranking score_lt scores)) pages
      /\ List.length pages = Z.to_nat (Z.of_nat (List.length images) + k).
Proof.
  intros query pdf_embeddings images k q scores Hq Hscores Hlen Hk.
  pose proof (ranking_perm score_lt scores) as Hperm.
  set (n := Z.to_nat (Z.of_nat (List.length images) + k)).
  assert (Hbound : Forall (fun i => i < List.length images)
                     (firstn n (ranking score_lt scores))).
  { rewrite Forall_forall. intros i Hi.
    assert (Hin : In i (ranking score_lt scores)).
    { rewrite <- (firstn_skipn n (ranking score_lt scores)).
      apply in_or_app. left. exact Hi. }
    eapply Permutation_in in Hin; [|exact Hperm].
    apply in_seq in Hin. lia. }
  destruct (traverse_getitem images Hbound) as [pages [Hpages Hall]].
  exists pages. split; [|split; [exact Hall|]].
  - unfold Retrieval.get_top_k_pages. rewrite Hq. simpl. rewrite Hscores. simpl.
    rewrite list_slice_to_negative by exact Hk.
    rewrite <- firstn_map.
    apply Permutation_length in Hperm. unfold ranking in Hperm.
    rewrite length_map, length_seq in Hperm. rewrite Hperm, Hlen.
    fold n. fold (ranking score_lt scores). rewrite Hpages. reflexivity.
  - apply Forall2_length in Hall. rewrite <- Hall, length_firstn.
    apply Permutation_length in Hperm. rewrite Hperm, length_seq, Hlen.
    subst n. lia.
Qed.

(** When the scorer returns more scores than the document has pages and [k]
    is large enough to reach all of them, an index falls outside [images]
    and the method raises with the text of the [IndexError] behind its own
    prefix. *)
Theorem top_k_more_scores_than_pages :
  forall (query : string) (pdf_embeddings : list embedding) (images : list image)
         (k : Z) (q : embedding) (scores : list score),
    embed_query query = Ok q ->
    score_multi_vector q pdf_embeddings = Ok scores ->
    List.length images < List.length scores ->
    (Z.of_nat (List.length scores) <= k)%Z ->
    Retrieval.get_top_k_pages score_lt embed_query score_multi_vector
      query pdf_embeddings images k
    = Raise (Exception "Failed to retrieve relevant pages: list index out of range").
Proof.
  intros query pdf_embeddings images k q scores Hq Hscores Hmore Hk.
  pose proof (ranking_perm score_lt scores) as Hperm.
  unfold Retrieval.get_top_k_pages. rewrite Hq. simpl. rewrite Hscores. simpl.
  rewrite list_slice_to_nonneg by lia.
  rewrite <- firstn_map. fold (ranking score_lt scores).
  rewrite firstn_all2
    by (apply Permutation_length in Hperm; rewrite Hperm, length_seq; lia).
  rewrite traverse_out_of_range; [reflexivity|].
  apply Exists_exists. exists (List.length images). split; [|lia].
  eapply Permutation_in; [apply Permutation_sym; exact Hperm|].
  apply in_seq. lia.
Qed.
End TopKEdges.

Lemma top_k_returns_pages_of_the_document_witness :
  Forall (fun p => In p five_pages) [page 1; page 3]
  /\ List.length [page 1; page 3] <= List.length five_pages
  /\ ((0 <= 2)%Z -> List.length [page 1; page 3] <= Z.to_nat 2).
Proof.
  apply (@top_k_returns_pages_of_the_document nat Z Z.ltb (fun _ => Ok 0)
           (fun _ _ => Ok [5; 9; 5; 9; 1; 7; 7]%Z)
           "query" [0; 0; 0; 0; 0] five_pages 2 [page 1; page 3]).
  reflexivity.
Defined.

Lemma top_k_negative_k_witness :
  exists pages,
    Retrieval.get_top_k_pages Z.ltb (fun _ => Ok 0)
      (fun _ (_ : list nat) => Ok [5; 9; 5; 9; 1]%Z)
      "query" [0; 0; 0; 0; 0] five_pages (-2) = Ok pages
    /\ Forall2 (fun i p => nth_error five_pages i = Some p)
         (firstn (Z.to_nat (Z.of_nat (List.length five_pages) + -2))
            (ranking Z.ltb [5; 9; 5; 9; 1]%Z)) pages
    /\ List.length pages = Z.to_nat (Z.of_nat (List.length five_pages) + -2).
Proof.
  apply (@top_k_negative_k nat Z Z.ltb (fun _ => Ok 0)
           (fun _ _ => Ok [5; 9; 5; 9; 1]%Z))
    with (q := 0) (scores := [5; 9; 5; 9; 1]%Z).
  - reflexivity.
  - reflexivity.
  - reflexivity.
  - lia.
Defined.

Lemma top_k_more_scores_than_pages_witness :
  Retrieval.get_top_k_pages Z.ltb (fun _ => Ok 0)
    (fun _ (_ : list nat) => Ok [5; 9; 5; 9; 1; 7; 7]%Z)
    "query" [0; 0; 0; 0; 0] five_pages 7
  = Raise (Exception "Failed to retrieve relevant pages: list index out of range").
Proof.
  apply (@top_k_more_scores_than_pages nat Z Z.ltb (fun _ => Ok 0)
           (fun _ _ => Ok [5; 9; 5; 9; 1; 7; 7]%Z))
    with (q := 0) (scores := [5; 9; 5; 9; 1; 7; 7]%Z).
  - reflexivity.
  - reflexivity.
  - simpl. lia.
  - simpl. lia.
Defined.

(** ** Indexing: batch sizes and failures *)

Section BatchBounds.
Variable A : Type.

Lemma range_step_bounds (size stop : nat) :
  forall fuel start i,
    In i (Retrieval.range_step fuel start stop size) -> start <= i /\ i < stop.
Proof.
  induction fuel as [|fuel IH]; intros start i Hin; simpl in Hin; [contradiction|].
  destruct (start <? stop) eqn:Hlt; [|contradiction].
  apply Nat.ltb_lt in Hlt. destruct Hin as [<-|Hin]; [lia|].
  apply IH in Hin. lia.
Qed.

(** No batch is empty and no batch holds more than [size] pages. *)
Theorem batches_are_bounded (size : nat) (l : list A) :
  0 < size ->
  Forall (fun batch => 1 <= List.length batch /\ List.length batch <= size)
    (Retrieval.make_batches size l).
Proof.
  intros Hsize. unfold Retrieval.make_batches.
  rewrite Forall_forall. intros batch Hin.
  apply in_map_iff in Hin. destruct Hin as [i [<- Hi]].
  apply range_step_bounds in Hi. destruct Hi as [_ Hi].
  unfold Retrieval.list_slice.
  rewrite length_firstn, length_skipn. lia.
Qed.
End BatchBounds.

Lemma batches_are_bounded_witness :
  Forall (fun batch => 1 <= List.length batch /\ List.length batch <= 4)
    (Retrieval.make_batches 4 nine_pages).
Proof.
  apply batches_are_bounded. lia.
Defined.

Section IndexingFailures.
Variable embedding : Type.
Variable convert_from_bytes : list byte -> result (list image).
Variable embed_images : list image -> result (list embedding).

Definition batch_raises (batch : list image) : Prop :=
  exists e, embed_images batch = Raise e.

Lemma embed_batches_raise (batches : list (list image)) :
  Exists batch_raises batches ->
  forall acc,
    exists batch e,
      In batch batches /\ embed_images batch = Raise e
      /\ Retrieval.embed_batches embed_images batches acc = Raise e.
Proof.
  induction batches as [|b rest IH]; intros Hex acc; [inversion Hex|].
  simpl. destruct (embed_images b) as [es|e] eqn:Hb.
  - inversion Hex as [? ? [e He]|? ? Hrest]; subst; [congruence|].
    destruct (IH Hrest (acc ++ es)%list) as [batch [e [Hin [He Heq]]]].
    exists batch, e. split; [right; exact Hin|]. split; [exact He | exact Heq].
  - exists b, e. split; [left; reflexivity|]. split; [exact Hb | reflexivity].
Qed.

(** Indexing returns all embeddings or none.  A document that does not decode
    raises the decoder's message behind the prefix of the method; when the
    model raises on some batch, the method raises the message of a failing
    batch behind the same prefix, and the embeddings of the batches before it
    are dropped. *)
Theorem index_raises_with_prefix :
  (forall pdf_data e,
      convert_from_bytes pdf_data = Raise e ->
      Retrieval.index_pdf_from_bytes convert_from_bytes embed_images pdf_data
      = Raise (Exception ("Failed to process PDF: " ++ str_of e)%string))
  /\ (forall pdf_data images,
        convert_from_bytes pdf_data = Ok images ->
        Exists batch_raises (Retrieval.make_batches settings.PDF_BATCH_SIZE images) ->
        exists batch e,
          In batch (Retrieval.make_batches settings.PDF_BATCH_SIZE images)
          /\ embed_images batch = Raise e
          /\ Retrieval.index_pdf_from_bytes convert_from_bytes embed_images pdf_data
             = Raise (Exception ("Failed to process PDF: " ++ str_of e)%string)).
Proof.
  split.
  - intros pdf_data e He. unfold Retrieval.index_pdf_from_bytes.
    rewrite He. reflexivity.
  - intros pdf_data images Hdecode Hex.
    destruct (embed_batches_raise Hex []) as [batch [e [Hin [He Heq]]]].
    exists batch, e. split; [exact Hin|]. split; [exact He|].
    unfold Retrieval.index_pdf_from_bytes. rewrite Hdecode. simpl.
    rewrite Heq. reflexivity.
Qed.
End IndexingFailures.

(** The model runs out of memory on the third batch of a nine-page document. *)
Example third_batch_fails :
  Retrieval.index_pdf_from_bytes (fun _ => Ok nine_pages)
    (fun batch => if List.length batch <? 4
                  then Raise (Exception "CUDA out of memory")
                  else Ok (map size_of batch))
    pdf_header
  = Raise (Exception "Failed to process PDF: CUDA out of memory").
Proof. reflexivity. Qed.

(** ** The reasoning stage: context entries, labels, malformed replies *)

(** The page images among the entries of [context_images]. *)
Definition pages_of (entries : list Reasoning.context_image) : list image :=
  flat_map (fun c => match c with
                     | Reasoning.Page img => [img]
                     | Reasoning.NoSave => []
                     end) entries.

Lemma prefix_app_self (p q : string) : String.prefix p (p ++ q) = true.
Proof.
  induction p as [|a p IH]; simpl.
  - destruct q; reflexivity.
  - destruct (ascii_dec a a); [exact IH | congruence].
Qed.

Section QwenEdges.
Import Http Reasoning.
Variable QWEN_INSTRUCTIONS : string.
Variable health : string -> nat -> Gate.probe.
Variable post : string -> payload -> result pyval.

Lemma flat_map_context_part (entries : list context_image) :
  flat_map context_part entries = map page_part (pages_of entries).
Proof.
  induction entries as [|[img|] entries IH]; simpl; [reflexivity | | exact IH].
  f_equal. exact IH.
Qed.

(** A non-empty [context_images] always brings the separator; after it come
    the attachments of the entries that are page images, in order, and an
    entry without a [save] attribute leaves no trace.  A list of such entries
    only makes the message end with the separator. *)
Theorem context_entries_without_save_are_skipped :
  forall (user_query : string) (user_images_b64 : option (list string))
         (entries : list context_image),
    entries <> [] ->
    build_content QWEN_INSTRUCTIONS user_query user_images_b64 (Some entries)
    = (preamble QWEN_INSTRUCTIONS user_query
         :: user_parts user_images_b64
         ++ separator :: map page_part (pages_of entries))%list.
Proof.
  intros user_query user_images_b64 entries Hne.
  unfold build_content, context_parts.
  destruct entries as [|c cs]; [congruence|].
  rewrite flat_map_context_part. reflexivity.
Qed.

(** Every attachment of the message is a data URL labelled [image/png],
    whatever the format of the bytes behind it. *)
Theorem attachments_are_labelled_png :
  forall (user_query : string) (user_images_b64 : option (list string))
         (context_images : option (list context_image)) (url : string),
    In (ImageUrl url)
       (build_content QWEN_INSTRUCTIONS user_query user_images_b64 context_images) ->
    String.prefix "data:image/png;base64," url = true.
Proof.
  intros user_query user_images_b64 context_images url Hin.
  assert (Hlabel : forall b64 u, ImageUrl u = image_part b64 ->
                                 String.prefix "data:image/png;base64," u = true).
  { intros b64 u Hu. unfold image_part in Hu. injection Hu as ->.
    exact (prefix_app_self "data:image/png;base64," b64). }
  unfold build_content in Hin. destruct Hin as [Hin|Hin]; [discriminate|].
  apply in_app_or in Hin. destruct Hin as [Hin|Hin].
  - destruct user_images_b64 as [imgs|]; simpl in Hin; [|contradiction].
    apply in_map_iff in Hin. destruct Hin as [b64 [Heq _]].
    eapply Hlabel. symmetry. exact Heq.
  - destruct context_images as [[|c cs]|]; simpl in Hin; try contradiction.
    destruct Hin as [Hin|Hin]; [discriminate|].
    change (In (ImageUrl url) (flat_map context_part (c :: cs))) in Hin.
    rewrite flat_map_context_part in Hin.
    apply in_map_iff in Hin. destruct Hin as [img [Heq _]].
    eapply Hlabel. symmetry. exact Heq.
Qed.

(** The stage does not look at the status of the reply.  A body without a
    [choices] entry makes it raise the [KeyError] for that key, an empty
    [choices] list the [IndexError]. *)
Theorem qwen_reply_without_choices :
  forall (server_url user_query : string)
         (user_images_b64 : option (list string))
         (context_images : option (list context_image)) (reply : dict),
    fst (Gate.wait_for_server "Qwen" settings.HEALTH_CHECK_MAX_RETRIES
           (health server_url)) = Ok tt ->
    post server_url
      (qwen_payload
         (build_content QWEN_INSTRUCTIONS user_query user_images_b64 context_images))
    = Ok (PDict reply) ->
    (dict_get reply "choices" = None ->
     analyze_question_with_qwen_url QWEN_INSTRUCTIONS health post
       server_url user_query user_images_b64 context_images
     = Raise (Exception "'choices'"))
    /\ (dict_get reply "choices" = Some (PList []) ->
        analyze_question_with_qwen_url QWEN_INSTRUCTIONS health post
          server_url user_query user_images_b64 context_images
        = Raise (Exception "list index out of range")).
Proof.
  intros server_url user_query user_images_b64 context_images reply Hgate Hpost.
  unfold analyze_question_with_qwen_url. rewrite Hgate. cbn [bind].
  rewrite Hpost. cbn [bind]. unfold first_choice, getitem.
  split; intros Hchoices; rewrite Hchoices; reflexivity.
Qed.
End QwenEdges.

Lemma context_entries_without_save_are_skipped_witness :
  Reasoning.build_content "Solve step by step." "Find I." None
    (Some [Reasoning.NoSave; Reasoning.Page (page 3); Reasoning.NoSave])
  = (Reasoning.preamble "Solve step by step." "Find I."
       :: Reasoning.user_parts None
       ++ Reasoning.separator
       :: map page_part
            (pages_of [Reasoning.NoSave; Reasoning.Page (page 3); Reasoning.NoSave]))%list.
Proof.
  apply context_entries_without_save_are_skipped. discriminate.
Defined.

Lemma attachments_are_labelled_png_witness :
  String.prefix "data:image/png;base64," "data:image/png;base64,/9j/4AAQ" = true.
Proof.
  apply (@attachments_are_labelled_png "Solve step by step." "Find I."
           (Some ["/9j/4AAQ"%string]) None "data:image/png;base64,/9j/4AAQ").
  right. left. reflexivity.
Defined.

Definition error_body : dict :=
  [("error"%string, PDict [("message"%string, PStr "model overloaded");
                           ("code"%string, PInt 503)])].

Lemma qwen_reply_without_choices_witness :
  (dict_get error_body "choices" = None ->
   Reasoning.analyze_question_with_qwen_url "Solve step by step."
     (fun _ _ => Gate.Status 200) (fun _ _ => Ok (PDict error_body))
     "https://qwen" "Find I." None None
   = Raise (Exception "'choices'"))
  /\ (dict_get error_body "choices" = Some (PList []) ->
      Reasoning.analyze_question_with_qwen_url "Solve step by step."
        (fun _ _ => Gate.Status 200) (fun _ _ => Ok (PDict error_body))
        "https://qwen" "Find I." None None
      = Raise (Exception "list index out of range")).
Proof.
  apply (@qwen_reply_without_choices "Solve step by step."
           (fun _ _ => Gate.Status 200) (fun _ _ => Ok (PDict error_body))
           "https://qwen" "Find I." None None error_body).
  - reflexivity.
  - reflexivity.
Defined.

(** ** Code extraction: the code is cut out of the reply, never made up *)

Section StringFacts.
Local Open Scope string_scope.


Lemma append_assoc (a b c : string) : (a ++ b) ++ c = a ++ (b ++ c).
Proof. induction a as [|x a IH]; simpl; [reflexivity | rewrite IH; reflexivity]. Qed.













End StringFacts.



(** ** Code generation needs a text solution *)

Section DeepseekEdges.
Import Http CodeGen.
Variable DEEPSEEK_PROMPT_TEMPLATE : string.
Variable health : string -> nat -> Gate.probe.

(** When the solution handed over is not a [str], the stage raises whatever
    the server would answer: the failure comes from the gate or from the
    second [replace], before the request is built. *)
Theorem code_generation_needs_a_string :
  forall (server_url user_query : string) (qwen_solution : pyval),
    (forall text, qwen_solution <> PStr text) ->
    exists e,
      forall post : string -> payload -> result pyval,
        generate_circuit_code DEEPSEEK_PROMPT_TEMPLATE health post
          server_url user_query qwen_solution = Raise e.
Proof.
  intros server_url user_query qwen_solution Hnot.
  unfold generate_circuit_code.
  destruct (fst (Gate.wait_for_server "DeepSeek" settings.HEALTH_CHECK_MAX_RETRIES
                   (health server_url))) as [[]|e].
  - destruct qwen_solution; try (eexists; intros post; reflexivity).
    exfalso. eapply Hnot. reflexivity.
  - exists e. intros post. reflexivity.
Qed.
End DeepseekEdges.

Lemma code_generation_needs_a_string_witness :
  exists e,
    forall post : string -> Http.payload -> result pyval,
      CodeGen.generate_circuit_code "Q: {question} S: {solution}"
        (fun _ _ => Gate.Status 200) post "https://deepseek" "Find I." PNone
      = Raise e.
Proof.
  apply code_generation_needs_a_string. intros text. discriminate.
Defined.

(** ** The diagram compiler: what every record holds, what a failure loses *)

Section CompilerEdges.
Import Compiler.
Variable py_exec : pyval -> figures -> exec_outcome.
Variable savefig : figures -> savefig_outcome.

(** Every record, of either shape, carries a boolean [success] flag and the
    program it was asked to run, unchanged. *)
Theorem compile_echoes_the_program :
  forall (code : pyval) (figs : figures),
    dict_get (fst (run_generated_code py_exec savefig code figs)) "schemdraw_code"
    = Some code
    /\ exists flag,
         dict_get (fst (run_generated_code py_exec savefig code figs)) "success"
         = Some (PBool flag).
Proof.
  intros code figs.
  destruct (draws_or_fails py_exec savefig code figs) as [[png_bytes Hd]|[c Hc]].
  - rewrite (run_when_draws Hd). split; [reflexivity | eexists; reflexivity].
  - rewrite (run_when_fails Hc). split; [reflexivity | eexists; reflexivity].
Qed.

(** A failure record holds no [stdout] and no [stderr] entry: what the
    program printed before it raised is not returned.  Its [error] is the
    text of the exception behind a fixed prefix. *)
Theorem failure_drops_captured_output :
  forall (code : pyval) (figs : figures) (c : caught),
    fails_with py_exec savefig code figs c ->
    let d := fst (run_generated_code py_exec savefig code figs) in
    dict_get d "stdout" = None
    /\ dict_get d "stderr" = None
    /\ dict_get d "error"
       = Some (PStr ("Error executing schemdraw code: " ++ str_of (exc c))).
Proof.
  intros code figs c Hc. cbv zeta. rewrite (run_when_fails Hc).
  repeat split; reflexivity.
Qed.

(** After a call that failed, every figure that [exec] left open is still
    open: the failure path closes nothing. *)
Theorem failure_closes_no_figure :
  forall (code : pyval) (figs : figures) (c : caught),
    fails_with py_exec savefig code figs c ->
    incl (exec_figures (py_exec code figs))
         (snd (run_generated_code py_exec savefig code figs)).
Proof.
  intros code figs c [Hexec|[Hexec Hsaved]]; unfold run_generated_code;
    rewrite Hexec; [|rewrite Hsaved]; simpl.
  - apply incl_refl.
  - unfold gcf. destruct (exec_figures (py_exec code figs)).
    + intros x Hx. contradiction.
    + apply incl_refl.
Qed.
End CompilerEdges.

(** A program that prints and then raises. *)
Definition printing_exec (code : pyval) (figs : Compiler.figures) : Compiler.exec_outcome :=
  Compiler.ExecOutcome (Some zero_division) "drawing resistor R1" "" (new_figure figs).

Lemma failure_drops_captured_output_witness :
  let d := fst (Compiler.run_generated_code printing_exec demo_savefig
                  (PStr raising_program) []) in
  dict_get d "stdout" = None
  /\ dict_get d "stderr" = None
  /\ dict_get d "error"
     = Some (PStr ("Error executing schemdraw code: " ++ str_of (Compiler.exc zero_division))).
Proof.
  apply (@failure_drops_captured_output printing_exec demo_savefig
           (PStr raising_program) [] zero_division).
  left. reflexivity.
Defined.

Lemma failure_closes_no_figure_witness :
  incl (Compiler.exec_figures (demo_exec (PStr raising_program) [4; 7]))
       (snd (Compiler.run_generated_code demo_exec demo_savefig
               (PStr raising_program) [4; 7])).
Proof.
  apply (@failure_closes_no_figure demo_exec demo_savefig
           (PStr raising_program) [4; 7] zero_division).
  left. reflexivity.
Defined.

(** ** The orchestrator: what a success envelope guarantees, which error a
    failure reports *)

Lemma generate_ok_solution_is_text (template : string)
    (health : string -> nat -> Gate.probe)
    (post : string -> Http.payload -> result pyval)
    (server_url user_query : string) (qwen_solution code : pyval) :
  CodeGen.generate_circuit_code template health post server_url user_query
    qwen_solution = Ok code ->
  exists text, qwen_solution = PStr text.
Proof.
  unfold CodeGen.generate_circuit_code. intros H.
  apply bind_ok in H. destruct H as [_ [_ H]].
  apply bind_ok in H. destruct H as [prompt [Hprompt _]].
  destruct qwen_solution; simpl in Hprompt; try discriminate. eauto.
Qed.

Section OrchestratorEdges.
Import Orchestrator.
Local Open Scope string_scope.
Variable W : World.
Variable user_query : string.
Variable pdf_data : list byte.
Variable user_images_bytes : option (list (list byte)).

Local Abbreviation index_call :=
  (Retrieval.index_pdf_from_bytes (convert_from_bytes W) (embed_images W) pdf_data).

Local Abbreviation top_k_call pdf_embeddings pdf_images :=
  (Retrieval.get_top_k_pages (score_lt W) (embed_query W) (score_multi_vector W)
     user_query pdf_embeddings pdf_images 3).

Local Abbreviation qwen_call qwen_server_url relevant_pages :=
  (Reasoning.analyze_question_with_qwen_url (QWEN_INSTRUCTIONS W) (health W) (post W)
     qwen_server_url user_query (Some (b64_images user_images_bytes))
     (Some (map Reasoning.Page relevant_pages))).

Local Abbreviation deepseek_call deepseek_server_url textual_solution :=
  (CodeGen.generate_circuit_code (DEEPSEEK_PROMPT_TEMPLATE W) (health W) (post W)
     deepseek_server_url user_query textual_solution).

Local Abbreviation compile_call circuit_schemdraw :=
  (Compiler.run_generated_code (py_exec W) (savefig W) circuit_schemdraw
     (open_figures W)).

Lemma pipeline_ok_inv (result : dict) :
  pipeline W user_query pdf_data user_images_bytes = Ok result ->
  exists qwen_url deepseek_url pdf_embeddings pdf_images relevant_pages
         textual_solution circuit_schemdraw,
    qwen_web_url W = Ok qwen_url
    /\ deepseek_web_url W = Ok deepseek_url
    /\ index_call = Ok (pdf_embeddings, pdf_images)
    /\ top_k_call pdf_embeddings pdf_images = Ok relevant_pages
    /\ qwen_call qwen_url relevant_pages = Ok textual_solution
    /\ deepseek_call deepseek_url textual_solution = Ok circuit_schemdraw
    /\ result = envelope W user_query textual_solution
                  (fst (compile_call circuit_schemdraw)) relevant_pages
                  (b64_images user_images_bytes) circuit_schemdraw.
Proof.
  unfold pipeline. cbv zeta. intros H.
  apply bind_ok in H. destruct H as [qwen_url [Hq H]].
  apply bind_ok in H. destruct H as [deepseek_url [Hd H]].
  apply bind_ok in H. destruct H as [[pdf_embeddings pdf_images] [Hi H]].
  apply bind_ok in H. destruct H as [relevant_pages [Hk H]].
  apply bind_ok in H. destruct H as [textual_solution [Hs H]].
  apply bind_ok in H. destruct H as [circuit_schemdraw [Hc H]].
  inversion H.
  exists qwen_url, deepseek_url, pdf_embeddings, pdf_images, relevant_pages,
    textual_solution, circuit_schemdraw.
  repeat split; assumption.
Qed.

(** The user uploaded at least one image. *)
Definition uploaded_images : bool :=
  match user_images_bytes with
  | Some (_ :: _) => true
  | Some [] => false
  | None => false
  end.

Lemma b64_images_nonempty :
  negb (Nat.eqb (List.length (b64_images user_images_bytes)) 0) = uploaded_images.
Proof.
  unfold b64_images, uploaded_images.
  destruct user_images_bytes as [[|img imgs]|]; reflexivity.
Qed.

(** An envelope with [success = True] holds everything a reader of it looks
    up: the question as asked, a solution that is a string, a diagram record
    with a boolean flag, and metadata.  The metadata count at most three
    pages, say whether images were uploaded, and name the same program that
    the diagram record echoes. *)
Theorem success_envelope_is_complete :
  forall result,
    solve_ee_problem W user_query pdf_data user_images_bytes = Ok result ->
    dict_get result "success" = Some (PBool true) ->
    exists text diagram metadata code pages flag time,
      dict_get result "question" = Some (PStr user_query)
      /\ dict_get result "textual_solution" = Some (PStr text)
      /\ dict_get result "circuit_diagram" = Some (PDict diagram)
      /\ dict_get diagram "success" = Some (PBool flag)
      /\ dict_get diagram "schemdraw_code" = Some code
      /\ dict_get result "metadata" = Some (PDict metadata)
      /\ dict_get metadata "generated_code" = Some code
      /\ dict_get metadata "num_relevant_pages" = Some (PInt pages)
      /\ (0 <= pages <= 3)%Z
      /\ dict_get metadata "has_user_images" = Some (PBool uploaded_images)
      /\ dict_get metadata "total_processing_time" = Some (PStr time).
Proof.
  intros result Hsolve Hflag. unfold solve_ee_problem in Hsolve.
  destruct (pipeline W user_query pdf_data user_images_bytes) as [r|e] eqn:Hp.
  - inversion Hsolve; subst r. clear Hsolve.
    apply pipeline_ok_inv in Hp.
    destruct Hp as [qwen_url [deepseek_url [pdf_embeddings [pdf_images
      [relevant_pages [textual_solution [circuit_schemdraw
        [_ [_ [_ [Hk [_ [Hc ->]]]]]]]]]]]]].
    apply generate_ok_solution_is_text in Hc. destruct Hc as [text ->].
    apply top_k_ok_bounds in Hk. destruct Hk as [_ [_ Hk]].
    specialize (Hk ltac:(lia)).
    destruct (draws_or_fails (py_exec W) (savefig W) circuit_schemdraw
                (open_figures W)) as [[png_bytes Hd]|[c Hfail]].
    + exists text. eexists. eexists. exists circuit_schemdraw.
      exists (Z.of_nat (List.length relevant_pages)), true.
      exists (total_processing_time W).
      unfold envelope. rewrite (run_when_draws Hd), b64_images_nonempty.
      cbn [fst dict_get String.eqb Ascii.eqb Bool.eqb].
      repeat split; try reflexivity; simpl in Hk; lia.
    + exists text. eexists. eexists. exists circuit_schemdraw.
      exists (Z.of_nat (List.length relevant_pages)), false.
      exists (total_processing_time W).
      unfold envelope. rewrite (run_when_fails Hfail), b64_images_nonempty.
      cbn [fst dict_get String.eqb Ascii.eqb Bool.eqb].
      repeat split; try reflexivity; simpl in Hk; lia.
  - inversion Hsolve; subst. simpl in Hflag. discriminate.
Qed.

(** When the endpoints resolve and the document does not decode, the error of
    the envelope is the decoder's message behind the prefix of the indexing
    method. *)
Theorem decode_failure_is_reported :
  forall (qwen_url deepseek_url : string) (e : exn),
    qwen_web_url W = Ok qwen_url ->
    deepseek_web_url W = Ok deepseek_url ->
    convert_from_bytes W pdf_data = Raise e ->
    solve_ee_problem W user_query pdf_data user_images_bytes
    = Ok [("success", PBool false);
          ("error", PStr ("Failed to process PDF: " ++ str_of e));
          ("question", PStr user_query)].
Proof.
  intros qwen_url deepseek_url e Hq Hd He.
  unfold solve_ee_problem, pipeline. cbv zeta.
  rewrite (bind_of_ok _ Hq), (bind_of_ok _ Hd).
  unfold Retrieval.index_pdf_from_bytes. rewrite He. reflexivity.
Qed.

(** When retrieval goes through and the client raises on each of the 30
    probes of the reasoning server, the request ends in a failure envelope
    whose error is the gate's fixed text: the code model is never asked and
    no diagram is compiled. *)
Theorem unreachable_qwen_is_reported :
  forall (qwen_url deepseek_url : string)
         (pdf_embeddings : list (embedding W)) (pdf_images relevant_pages : list image),
    qwen_web_url W = Ok qwen_url ->
    deepseek_web_url W = Ok deepseek_url ->
    index_call = Ok (pdf_embeddings, pdf_images) ->
    top_k_call pdf_embeddings pdf_images = Ok relevant_pages ->
    (forall j, j < settings.HEALTH_CHECK_MAX_RETRIES ->
               exists err, health W qwen_url j = Gate.ClientError err) ->
    solve_ee_problem W user_query pdf_data user_images_bytes
    = Ok [("success", PBool false);
          ("error", PStr "Qwen server failed to start");
          ("question", PStr user_query)].
Proof.
  intros qwen_url deepseek_url pdf_embeddings pdf_images relevant_pages
    Hq Hd Hi Hk Hdown.
  assert (Hgate : qwen_call qwen_url relevant_pages
                  = Raise (Exception "Qwen server failed to start")).
  { unfold Reasoning.analyze_question_with_qwen_url, Gate.wait_for_server.
    destruct (@health_loop_errors_raise "Qwen" settings.HEALTH_CHECK_MAX_RETRIES
                (health W qwen_url) 29 0) as [t [Heq _]];
      [reflexivity | intros j _ Hj; apply Hdown; exact Hj |].
    change (S 29) with settings.HEALTH_CHECK_MAX_RETRIES in Heq.
    rewrite Heq. reflexivity. }
  unfold solve_ee_problem, pipeline. cbv zeta.
  rewrite (bind_of_ok _ Hq), (bind_of_ok _ Hd), (bind_of_ok _ Hi).
  cbv beta iota.
  rewrite (bind_of_ok _ Hk), (bind_of_raise _ Hgate). reflexivity.
Qed.
End OrchestratorEdges.

Definition demo_result : dict :=
  Eval vm_compute in
    match Orchestrator.solve_ee_problem (demo_world true drawing_program)
            "Find I." pdf_header (Some [png_signature]) with
    | Ok result => result
    | Raise _ => []
    end.

Lemma success_envelope_is_complete_witness :
  exists text diagram metadata code pages flag time,
    dict_get demo_result "question" = Some (PStr "Find I.")
    /\ dict_get demo_result "textual_solution" = Some (PStr text)
    /\ dict_get demo_result "circuit_diagram" = Some (PDict diagram)
    /\ dict_get diagram "success" = Some (PBool flag)
    /\ dict_get diagram "schemdraw_code" = Some code
    /\ dict_get demo_result "metadata" = Some (PDict metadata)
    /\ dict_get metadata "generated_code" = Some code
    /\ dict_get metadata "num_relevant_pages" = Some (PInt pages)
    /\ (0 <= pages <= 3)%Z
    /\ dict_get metadata "has_user_images"
       = Some (PBool (uploaded_images (Some [png_signature])))
    /\ dict_get metadata "total_processing_time" = Some (PStr time).
Proof.
  apply (@success_envelope_is_complete (demo_world true drawing_program)
           "Find I." pdf_header (Some [png_signature]) demo_result).
  - vm_compute. reflexivity.
  - reflexivity.
Defined.

Lemma decode_failure_is_reported_witness :
  Orchestrator.solve_ee_problem (demo_world false drawing_program)
    "Find I." pdf_header None
  = Ok [("success"%string, PBool false);
        ("error"%string,
         PStr ("Failed to process PDF: "
                 ++ str_of (Exception "Unable to get page count.")));
        ("question"%string, PStr "Find I.")].
Proof.
  apply (@decode_failure_is_reported (demo_world false drawing_program)
           "Find I." pdf_header None "https://qwen" "https://deepseek").
  - reflexivity.
  - reflexivity.
  - reflexivity.
Defined.

(** The world of [demo_world], with a reasoning server that refuses every
    connection. *)
Definition offline_world : Orchestrator.World :=
  {| Orchestrator.embedding := nat;
     Orchestrator.score := Z;
     Orchestrator.score_lt := Z.ltb;
     Orchestrator.convert_from_bytes := fun _ => Ok [page 1];
     Orchestrator.embed_images := fun batch => Ok (map size_of batch);
     Orchestrator.embed_query := fun _ => Ok 0;
     Orchestrator.score_multi_vector := fun _ es => Ok (map Z.of_nat es);
     Orchestrator.qwen_web_url := Ok "https://qwen"%string;
     Orchestrator.deepseek_web_url := Ok "https://deepseek"%string;
     Orchestrator.health :=
       fun url _ => if String.eqb url "https://qwen"
                    then Gate.ClientError (Exception "connection refused")
                    else Gate.Status 200;
     Orchestrator.post := fun _ _ => Ok (canned_reply drawing_program);
     Orchestrator.QWEN_INSTRUCTIONS := "Solve step by step.";
     Orchestrator.DEEPSEEK_PROMPT_TEMPLATE := "Q: {question} S: {solution}";
     Orchestrator.py_exec := demo_exec;
     Orchestrator.savefig := demo_savefig;
     Orchestrator.open_figures := [];
     Orchestrator.total_processing_time := "300.00s" |}.

Lemma unreachable_qwen_is_reported_witness :
  Orchestrator.solve_ee_problem offline_world "Find I." pdf_header None
  = Ok [("success"%string, PBool false);
        ("error"%string, PStr "Qwen server failed to start");
        ("question"%string, PStr "Find I.")].
Proof.
  apply (@unreachable_qwen_is_reported offline_world "Find I." pdf_header None
           "https://qwen" "https://deepseek" [1] [page 1] [page 1]).
  - reflexivity.
  - reflexivity.
  - vm_compute. reflexivity.
  - vm_compute. reflexivity.
  - intros j _. eexists. reflexivity.
Defined.

(** * The frontend's reading of a result (frontend/streamlit_app.py)

    [display_solution_results] decodes the image of a diagram record with
    [base64.b64decode] and rewrites bracketed formulas of the solution text
    with one [re.sub].  Both are modelled here; the Streamlit widgets are
    not. *)

(** ** base64.b64decode on a [str], with its default [validate=False] *)

Module Binascii.
Local Open Scope string_scope.

(** [table_a2b_base64]: the value of an alphabet character. *)
Definition table (c : ascii) : option N :=
  let n := nat_of_ascii c in
  if ((65 <=? n) && (n <=? 90))%nat then Some (N.of_nat (n - 65))
  else if ((97 <=? n) && (n <=? 122))%nat then Some (N.of_nat (n - 71))
  else if ((48 <=? n) && (n <=? 57))%nat then Some (N.of_nat (n + 4))
  else if (n =? 43)%nat then Some 62%N
  else if (n =? 47)%nat then Some 63%N
  else None.

Definition byte_of_N (n : N) : byte :=
  match Byte.of_N (n mod 256) with
  | Some b => b
  | None => x00
  end.

(** Store one byte in front of what the rest of the loop writes. *)
Definition emit (n : N) (rest : result (list byte)) : result (list byte) :=
  match rest with
  | Ok bytes => Ok (byte_of_N n :: bytes)
  | Raise e => Raise e
  end.

(** A natural number in decimal. *)
Fixpoint decimal_fuel (fuel n : nat) (acc : string) : string :=
  match fuel with
  | 0 => acc
  | S fuel' =>
      let acc' := String (ascii_of_nat (48 + n mod 10)) acc in
      if (n <? 10)%nat then acc' else decimal_fuel fuel' (n / 10) acc'
  end.

Definition decimal (n : nat) : string := decimal_fuel (S n) n "".

(** The loop of [a2b_base64] without strict mode.  [quad_pos] counts the
    characters of the current group of four, [leftchar] holds the bits not
    yet written, [pads] the [=] seen in a row, [written] the bytes written so
    far.  A character outside the alphabet is passed over.  A [=] that
    completes a group started by at least two characters ends the decoding;
    any other [=] is passed over. *)
Fixpoint a2b_loop (s : string) (quad_pos : nat) (leftchar : N) (pads written : nat)
    : result (list byte) :=
  match s with
  | EmptyString =>
      match quad_pos with
      | 0 => Ok []
      | 1 =>
          Raise (Exception
                   ("Invalid base64-encoded string: number of data characters ("
                      ++ decimal (written / 3 * 4 + 1)
                      ++ ") cannot be 1 more than a multiple of 4"))
      | _ => Raise (Exception "Incorrect padding")
      end
  | String c r =>
      if Ascii.eqb c "="%char then
        if (2 <=? quad_pos)%nat then
          if (4 <=? quad_pos + S pads)%nat then Ok []
          else a2b_loop r quad_pos leftchar (S pads) written
        else a2b_loop r quad_pos leftchar pads written
      else
        match table c with
        | None => a2b_loop r quad_pos leftchar pads written
        | Some v =>
            match quad_pos with
            | 0 => a2b_loop r 1 v 0 written
            | 1 =>
                emit (leftchar * 4 + v / 16)
                  (a2b_loop r 2 (v mod 16) 0 (S written))
            | 2 =>
                emit (leftchar * 16 + v / 4)
                  (a2b_loop r 3 (v mod 4) 0 (S written))
            | _ =>
                emit (leftchar * 64 + v)
                  (a2b_loop r 0 0 0 (S written))
            end
        end
  end.

Fixpoint is_ascii (s : string) : bool :=
  match s with
  | EmptyString => true
  | String c r => (nat_of_ascii c <? 128)%nat && is_ascii r
  end.

(** [base64.b64decode(s)]: the text is encoded as ASCII, then decoded. *)
Definition b64decode (s : string) : result (list byte) :=
  if is_ascii s then a2b_loop s 0 0 0 0
  else Raise (Exception "string argument should contain only ASCII characters").
End Binascii.

(** ** The rewriting of bracketed formulas *)

Module Frontend.
Local Open Scope string_scope.

(** Reading on from inside a candidate formula, [len] characters after the
    opening bracket and its blank: the first closing bracket ends a formula
    when at least two characters stand before it and the last one is a
    blank. *)
Fixpoint closes (s : string) (len : nat) (last_is_blank : bool) : bool :=
  match s with
  | EmptyString => false
  | String c r =>
      if Ascii.eqb c "]"%char then (2 <=? len)%nat && last_is_blank
      else closes r (S len) (Ascii.eqb c " "%char)
  end.

(** The pattern matches at an opening bracket followed by [r]: a blank, one
    or more characters other than a closing bracket, a blank, a closing
    bracket. *)
Definition opens (r : string) : bool :=
  match r with
  | String c r' => Ascii.eqb c " "%char && closes r' 0 false
  | EmptyString => false
  end.

(** The substitution, left to right.  The replacement writes a dollar sign
    for each of the two brackets and keeps what stands between them. *)
Fixpoint sub_formulas (s : string) (inside : bool) : string :=
  match s with
  | EmptyString => EmptyString
  | String c r =>
      if inside then
        if Ascii.eqb c "]"%char then String "$"%char (sub_formulas r false)
        else String c (sub_formulas r true)
      else if Ascii.eqb c "["%char && opens r
           then String "$"%char (sub_formulas r true)
           else String c (sub_formulas r false)
  end.

(** [re.sub(r'\[ ([^\]]+) \]', r'$ \1 $', solution_text)]. *)
Definition latex_text (solution_text : string) : string :=
  sub_formulas solution_text false.
End Frontend.

(** ** Base64: the image survives the trip to the frontend *)

From Stdlib Require Import NArith.

Lemma list_ind3 (A : Type) (P : list A -> Prop) :
  P [] -> (forall a, P [a]) -> (forall a b, P [a; b]) ->
  (forall a b c rest, P rest -> P (a :: b :: c :: rest)) ->
  forall l, P l.
Proof.
  intros H0 H1 H2 H3.
  assert (H : forall l, P l /\ (forall a, P (a :: l)) /\ (forall a b, P (a :: b :: l))).
  { induction l as [|x l [IH0 [IH1 IH2]]].
    - repeat split; auto.
    - split; [apply IH1|]. split; [intros a; apply IH2|].
      intros a b. apply H3. exact IH0. }
  intros l. apply H.
Qed.

Definition sextet_ok (m : N) : bool :=
  match Binascii.table (Base64.sextet m) with
  | Some v => N.eqb v m
  | None => false
  end
  && negb (Ascii.eqb (Base64.sextet m) "="%char)
  && (nat_of_ascii (Base64.sextet m) <? 128).

Lemma sextet_facts (m : N) :
  (m < 64)%N ->
  Binascii.table (Base64.sextet m) = Some m
  /\ Ascii.eqb (Base64.sextet m) "="%char = false
  /\ (nat_of_ascii (Base64.sextet m) <? 128) = true.
Proof.
  intros Hm.
  assert (Hall : forallb sextet_ok (map N.of_nat (seq 0 64)) = true)
    by (vm_compute; reflexivity).
  rewrite forallb_forall in Hall.
  assert (Hok : sextet_ok m = true).
  { apply Hall. apply in_map_iff. exists (N.to_nat m).
    split; [apply N2Nat.id | apply in_seq; lia]. }
  unfold sextet_ok in Hok.
  apply andb_true_iff in Hok. destruct Hok as [Hok Hascii].
  apply andb_true_iff in Hok. destruct Hok as [Htable Hpad].
  destruct (Binascii.table (Base64.sextet m)) as [v|]; [|discriminate].
  apply N.eqb_eq in Htable. subst v.
  apply negb_true_iff in Hpad. auto.
Qed.

Lemma a2b_step (m : N) (r : string) (quad_pos : nat) (leftchar : N) (pads written : nat) :
  (m < 64)%N ->
  Binascii.a2b_loop (String (Base64.sextet m) r) quad_pos leftchar pads written
  = match quad_pos with
    | 0 => Binascii.a2b_loop r 1 m 0 written
    | 1 => Binascii.emit (leftchar * 4 + m / 16)
             (Binascii.a2b_loop r 2 (m mod 16) 0 (S written))
    | 2 => Binascii.emit (leftchar * 16 + m / 4)
             (Binascii.a2b_loop r 3 (m mod 4) 0 (S written))
    | _ => Binascii.emit (leftchar * 64 + m)
             (Binascii.a2b_loop r 0 0 0 (S written))
    end.
Proof.
  intros Hm. destruct (sextet_facts Hm) as [Htable [Hpad _]].
  cbn [Binascii.a2b_loop]. rewrite Hpad, Htable. reflexivity.
Qed.

Lemma byte_of_code (a : byte) (n : N) :
  n = Base64.code a -> Binascii.byte_of_N n = a.
Proof.
  intros ->. unfold Binascii.byte_of_N, Base64.code.
  pose proof (Byte.to_N_bounded a) as Hb.
  rewrite N.mod_small by lia. rewrite Byte.of_to_N. reflexivity.
Qed.

Lemma code_bounded (a : byte) : (Base64.code a < 256)%N.
Proof. unfold Base64.code. pose proof (Byte.to_N_bounded a). lia. Qed.

Ltac sextet_arith :=
  repeat match goal with
    | a : byte |- _ =>
        lazymatch goal with
        | H : (Base64.code a < 256)%N |- _ => fail
        | _ => pose proof (code_bounded a)
        end
    end;
  zify; Z.to_euclidean_division_equations; lia.

Lemma a2b_loop_encode (bs : list byte) :
  forall leftchar pads written,
    Binascii.a2b_loop (Base64.b64encode bs) 0 leftchar pads written = Ok bs.
Proof.
  induction bs as [|a|a b|a b c rest IH] using list_ind3;
    intros leftchar pads written.
  - reflexivity.
  - cbn [Base64.b64encode]. rewrite !a2b_step by sextet_arith.
    cbn [Binascii.a2b_loop Ascii.eqb Bool.eqb Nat.leb Nat.add Binascii.emit].
    f_equal. f_equal. apply byte_of_code. sextet_arith.
  - cbn [Base64.b64encode]. rewrite !a2b_step by sextet_arith.
    cbn [Binascii.a2b_loop Ascii.eqb Bool.eqb Nat.leb Nat.add Binascii.emit].
    f_equal. f_equal; [apply byte_of_code; sextet_arith|].
    f_equal. apply byte_of_code. sextet_arith.
  - cbn [Base64.b64encode]. rewrite !a2b_step by sextet_arith.
    rewrite IH. cbn [Binascii.emit].
    f_equal. f_equal; [apply byte_of_code; sextet_arith|].
    f_equal; [apply byte_of_code; sextet_arith|].
    f_equal. apply byte_of_code. sextet_arith.
Qed.

Lemma is_ascii_encode (bs : list byte) :
  Binascii.is_ascii (Base64.b64encode bs) = true.
Proof.
  assert (Hs : forall m r, (m < 64)%N ->
             Binascii.is_ascii (String (Base64.sextet m) r) = Binascii.is_ascii r).
  { intros m r Hm. destruct (sextet_facts Hm) as [_ [_ Hascii]].
    cbn [Binascii.is_ascii]. rewrite Hascii. reflexivity. }
  induction bs as [|a|a b|a b c rest IH] using list_ind3;
    cbn [Base64.b64encode]; rewrite ?Hs by sextet_arith; auto.
Qed.

(** What [b64encode] writes, [b64decode] reads back: the frontend recovers
    the bytes of the image that the compiler encoded, for every byte
    sequence. *)
Theorem b64decode_b64encode :
  forall bs : list byte, Binascii.b64decode (Base64.b64encode bs) = Ok bs.
Proof.
  intros bs. unfold Binascii.b64decode.
  rewrite is_ascii_encode. apply a2b_loop_encode.
Qed.

(** Three bytes give four characters and a last group of one or two bytes is
    padded to four: the encoded image is [4 * ceil(n / 3)] characters long. *)
Theorem b64encode_length :
  forall bs : list byte,
    String.length (Base64.b64encode bs) = 4 * ((List.length bs + 2) / 3).
Proof.
  induction bs as [|a|a b|a b c rest IH] using list_ind3;
    try reflexivity.
  cbn [Base64.b64encode String.length List.length]. rewrite IH.
  replace (S (S (S (List.length rest))) + 2) with (1 * 3 + (List.length rest + 2)) by lia.
  rewrite Nat.div_add_l by lia. lia.
Qed.

(** ** Bracketed formulas *)

Section FormulaFacts.
Import Frontend.
Local Open Scope string_scope.

(** [c] does not occur in [s]. *)
Fixpoint lacks (c : ascii) (s : string) : bool :=
  match s with
  | EmptyString => true
  | String d r => negb (Ascii.eqb d c) && lacks c r
  end.

Lemma sub_formulas_length (s : string) :
  forall inside, String.length (sub_formulas s inside) = String.length s.
Proof.
  induction s as [|c r IH]; intros inside; [reflexivity|].
  cbn [sub_formulas]. destruct inside.
  - destruct (Ascii.eqb c "]"); simpl; rewrite IH; reflexivity.
  - destruct (Ascii.eqb c "[" && opens r); simpl; rewrite IH; reflexivity.
Qed.

Lemma sub_formulas_without_opening (s : string) :
  forall i, PyStr.find_from s "[ " i = None -> sub_formulas s false = s.
Proof.
  induction s as [|c r IH]; intros i Hfind; [reflexivity|].
  cbn [PyStr.find_from] in Hfind.
  destruct (String.prefix "[ " (String c r)) eqn:Hprefix; [discriminate|].
  cbn [sub_formulas].
  assert (Hno : Ascii.eqb c "[" && opens r = false).
  { destruct (Ascii.eqb c "[") eqn:Hc; [|reflexivity].
    apply Ascii.eqb_eq in Hc. subst c. simpl.
    destruct r as [|d r']; [reflexivity|].
    simpl in Hprefix. simpl.
    destruct (ascii_dec " " d) as [<-|Hd].
    - destruct r'; discriminate.
    - replace (Ascii.eqb d " ") with false; [reflexivity|].
      symmetry. apply Ascii.eqb_neq. congruence. }
  rewrite Hno. f_equal. eapply IH. exact Hfind.
Qed.

Lemma sub_formulas_before (pre rest : string) :
  lacks "[" pre = true ->
  sub_formulas (pre ++ rest) false = pre ++ sub_formulas rest false.
Proof.
  induction pre as [|c pre IH]; intros Hpre; [reflexivity|].
  simpl in Hpre. apply andb_true_iff in Hpre. destruct Hpre as [Hc Hpre].
  apply negb_true_iff in Hc.
  simpl. rewrite Hc. simpl. rewrite IH by exact Hpre. reflexivity.
Qed.

Lemma sub_formulas_inside (body rest : string) :
  lacks "]" body = true ->
  sub_formulas (body ++ String "]" rest) true
  = body ++ String "$" (sub_formulas rest false).
Proof.
  induction body as [|c body IH]; intros Hbody; [reflexivity|].
  simpl in Hbody. apply andb_true_iff in Hbody. destruct Hbody as [Hc Hbody].
  apply negb_true_iff in Hc.
  simpl. rewrite Hc. rewrite IH by exact Hbody. reflexivity.
Qed.

Lemma closes_formula (formula rest : string) :
  lacks "]" formula = true ->
  forall len last_is_blank,
    closes (formula ++ String " " (String "]" rest)) len last_is_blank
    = (2 <=? S (len + String.length formula))%nat.
Proof.
  induction formula as [|c formula IH]; intros Hf len last_is_blank.
  - simpl. rewrite Nat.add_0_r. destruct len as [|[|len]]; reflexivity.
  - simpl in Hf. apply andb_true_iff in Hf. destruct Hf as [Hc Hf].
    apply negb_true_iff in Hc.
    cbn [append closes]. rewrite Hc. rewrite IH by exact Hf.
    cbn [String.length].
    replace (S len + String.length formula)%nat
      with (len + S (String.length formula))%nat by lia.
    reflexivity.
Qed.

Lemma lacks_app (c : ascii) (a b : string) :
  lacks c (a ++ b) = lacks c a && lacks c b.
Proof.
  induction a as [|d a IH]; simpl; [reflexivity|].
  rewrite IH, andb_assoc. reflexivity.
Qed.
End FormulaFacts.

(** The rewriting changes no length: it only turns brackets into dollar
    signs, one for one. *)
Theorem latex_text_keeps_length :
  forall solution_text : string,
    String.length (Frontend.latex_text solution_text) = String.length solution_text.
Proof. intros solution_text. apply sub_formulas_length. Qed.

(** A text in which no opening bracket is followed by a blank is displayed as
    it is; in particular brackets written without the blanks are left
    alone. *)
Theorem latex_text_without_formula :
  forall solution_text : string,
    PyStr.contains solution_text "[ " = false ->
    Frontend.latex_text solution_text = solution_text.
Proof.
  intros solution_text Hno. unfold PyStr.contains in Hno.
  destruct (PyStr.find_from solution_text "[ " 0) eqn:Hfind; [discriminate|].
  eapply sub_formulas_without_opening. exact Hfind.
Qed.

Lemma latex_text_without_formula_witness :
  Frontend.latex_text "I = V/R with R[1] = 2" = "I = V/R with R[1] = 2"%string.
Proof.
  apply latex_text_without_formula. reflexivity.
Defined.

(** The first bracketed formula of a text, a non-empty formula without a
    closing bracket between [[ ] and [ ]], is put between dollar signs; the
    text before it is kept and the text after it is rewritten in turn. *)
Theorem latex_text_rewrites_formula :
  forall before formula rest : string,
    lacks "[" before = true ->
    lacks "]" formula = true ->
    formula <> EmptyString ->
    Frontend.latex_text (before ++ "[ " ++ formula ++ " ]" ++ rest)
    = (before ++ "$ " ++ formula ++ " $" ++ Frontend.latex_text rest)%string.
Proof.
  intros before formula rest Hbefore Hformula Hne.
  unfold Frontend.latex_text. rewrite sub_formulas_before by exact Hbefore.
  f_equal.
  change ("[ " ++ formula ++ " ]" ++ rest)%string
    with (String "[" (String " " (formula ++ String " " (String "]" rest)))).
  cbn [Frontend.sub_formulas Frontend.opens Ascii.eqb Bool.eqb andb].
  rewrite closes_formula by exact Hformula.
  destruct formula as [|c formula]; [congruence|].
  cbn [String.length Nat.add Nat.leb].
  cbv beta iota.
  assert (Hsplit : (String c formula ++ String " " (String "]" rest)
                    = (String c formula ++ " ") ++ String "]" rest)%string).
  { rewrite append_assoc. reflexivity. }
  rewrite Hsplit, sub_formulas_inside.
  - cbn [append]. do 3 f_equal. rewrite append_assoc. reflexivity.
  - rewrite lacks_app, Hformula. reflexivity.
Qed.

Lemma latex_text_rewrites_formula_witness :
  Frontend.latex_text "So [ V = I R ] and [ P = V I ]."
  = "So $ V = I R $ and $ P = V I $."%string.
Proof.
  apply (@latex_text_rewrites_formula "So "%string "V = I R"%string
           " and [ P = V I ]."%string);
    [reflexivity | reflexivity | discriminate].
Defined.
